(** * Block identifier resolution and error normalisation of the sidecar

    A shallow embedding of [AbstractController] (block identifier
    resolution, numeric query parameters, the async handler wrapper) and of
    [txErrorMiddleware], together with the JavaScript and library
    primitives they rely on.

    Strings are [string]; one [ascii] stands for one UTF-16 code unit (the
    code units below 256), so [String.length] is the JavaScript [length]. *)

From Stdlib Require Import ZArith NArith List String Ascii Bool Lia.
From Stdlib Require Import DecimalString DecimalPos DecimalN DecimalZ.
Import ListNotations.

Set Warnings "-register-all".

Local Open Scope Z_scope.
Local Open Scope list_scope.
Local Open Scope string_scope.

(** ** JavaScript numbers and strings *)

Module JS.

Local Open Scope Z_scope.

(** A JavaScript number (IEEE 754 binary64), in a form that is canonical for
    the integral values: [Int z] is the double whose value is the integer
    [z] ([Int 0] is [+0]), [NegZero] is [-0], and [Frac s m k] is the
    non-integral double [(-1)^s * m / 2^k] with [m] odd. *)
Inductive number : Type :=
| NaN
| Infinity (negative : bool)
| NegZero
| Int (z : Z)
| Frac (negative : bool) (m : positive) (k : positive).

Definition signed (negative : bool) (z : Z) : Z :=
  if negative then - z else z.

Definition zero (negative : bool) : number :=
  if negative then NegZero else Int 0.

(** [m / 2^k] in canonical form. *)
Fixpoint dyadic (negative : bool) (m : positive) (k : positive) : number :=
  match m with
  | xO m' =>
      match k with
      | xH => Int (signed negative (Zpos m'))
      | _ => dyadic negative m' (Pos.pred k)
      end
  | _ => Frac negative m k
  end.

(** *** Rounding a non-negative rational [p / q] to binary64 *)

(** [(n, d)] with [n / d = (p / q) / 2^u]. *)
Definition scaled (p q u : Z) : Z * Z :=
  if 0 <=? u then (p, q * 2 ^ u) else (p * 2 ^ (- u), q).

(** The [k] with [2^k <= p / q < 2^(k+1)], for [0 < p] and [0 < q]. *)
Definition floor_log2_ratio (p q : Z) : Z :=
  let k0 := Z.log2 p - Z.log2 q in
  let (n, d) := scaled p q k0 in
  if d <=? n then k0 else k0 - 1.

(** [n / d] rounded to the nearest integer, ties to even. *)
Definition round_half_even (n d : Z) : Z :=
  let qt := n / d in
  let r := n mod d in
  if (d <? 2 * r) || ((d =? 2 * r) && Z.odd qt) then qt + 1 else qt.

(** The Number value for the mathematical value [(-1)^negative * p / q]:
    53 bits of precision, least exponent [-1074], overflow to infinity. *)
Definition to_binary64 (negative : bool) (p q : Z) : number :=
  if p =? 0 then zero negative
  else
    let u := Z.max (floor_log2_ratio p q - 52) (-1074) in
    let (n, d) := scaled p q u in
    let m := round_half_even n d in
    if 0 <=? u then
      if 2 ^ 1024 <=? m * 2 ^ u then Infinity negative
      else Int (signed negative (m * 2 ^ u))
    else
      match m with
      | Zpos m' => dyadic negative m' (Z.to_pos (- u))
      | _ => zero negative
      end.

(** *** StringToNumber: the conversion [Number(s)] applies to a string *)

(** StrWhiteSpaceChar: TAB, LF, VT, FF, CR, SP and NBSP. *)
Definition is_white_space (c : ascii) : bool :=
  let n := N_of_ascii c in
  (((9 <=? n) && (n <=? 13)) || (n =? 32) || (n =? 160))%N.

Fixpoint drop_white_space (l : list ascii) : list ascii :=
  match l with
  | c :: l' => if is_white_space c then drop_white_space l' else l
  | [] => []
  end.

Definition trim (l : list ascii) : list ascii :=
  rev (drop_white_space (rev (drop_white_space l))).

(** The value of a digit of base up to 16. *)
Definition hex_digit (c : ascii) : option Z :=
  let n := Z.of_N (N_of_ascii c) in
  if (48 <=? n) && (n <=? 57) then Some (n - 48)
  else if (97 <=? n) && (n <=? 102) then Some (n - 87)
  else if (65 <=? n) && (n <=? 70) then Some (n - 55)
  else None.

Definition digit (base : Z) (c : ascii) : option Z :=
  match hex_digit c with
  | Some d => if d <? base then Some d else None
  | None => None
  end.

(** The longest prefix of digits of [l], as their values, and the rest. *)
Fixpoint span_digits (base : Z) (l : list ascii) : list Z * list ascii :=
  match l with
  | c :: l' =>
      match digit base c with
      | Some d => let (ds, r) := span_digits base l' in (d :: ds, r)
      | None => ([], l)
      end
  | [] => ([], [])
  end.

Definition digits_value (base : Z) (ds : list Z) : Z :=
  fold_left (fun acc d => base * acc + d) ds 0.

(** One or more digits of [base] and nothing else. *)
Definition all_digits (base : Z) (l : list ascii) : option Z :=
  match span_digits base l with
  | ((_ :: _) as ds, []) => Some (digits_value base ds)
  | _ => None
  end.

(** NonDecimalIntegerLiteral: [0x], [0o] or [0b] and digits; no sign. *)
Definition non_decimal_literal (l : list ascii) : option Z :=
  match l with
  | z :: c :: l' =>
      if negb (z =? "0")%char then None
      else if (c =? "x")%char || (c =? "X")%char then all_digits 16 l'
      else if (c =? "o")%char || (c =? "O")%char then all_digits 8 l'
      else if (c =? "b")%char || (c =? "B")%char then all_digits 2 l'
      else None
  | _ => None
  end.

(** A leading sign, when there is one, and what follows it. *)
Definition split_sign (l : list ascii) : bool * list ascii :=
  match l with
  | c :: r =>
      if (c =? "-")%char then (true, r)
      else if (c =? "+")%char then (false, r)
      else (false, l)
  | [] => (false, l)
  end.

(** ExponentPart after its indicator: an optional sign and digits. *)
Definition signed_integer (l : list ascii) : option Z :=
  let (negative, ds) := split_sign l in
  option_map (signed negative) (all_digits 10 ds).

(** StrUnsignedDecimalLiteral other than [Infinity], as [(m, e)] with value
    [m * 10^e]: digits, an optional fraction, an optional exponent, with a
    digit on at least one side of the point. *)
Definition unsigned_decimal_literal (l : list ascii) : option (Z * Z) :=
  let (ip, r1) := span_digits 10 l in
  let (fp, r2) :=
    match r1 with
    | c :: r => if (c =? ".")%char then span_digits 10 r else ([], r1)
    | [] => ([], r1)
    end in
  match (ip ++ fp)%list with
  | [] => None
  | ds =>
      let m := digits_value 10 ds in
      let scale := Z.of_nat (List.length fp) in
      match r2 with
      | [] => Some (m, - scale)
      | c :: r3 =>
          if (c =? "e")%char || (c =? "E")%char then
            match signed_integer r3 with
            | Some e => Some (m, e - scale)
            | None => None
            end
          else None
      end
  end.

Definition of_decimal (negative : bool) (m e : Z) : number :=
  if 0 <=? e then to_binary64 negative (m * 10 ^ e) 1
  else to_binary64 negative m (10 ^ (- e)).

(** [Number(s)] for a string [s]. *)
Definition Number (s : string) : number :=
  match trim (list_ascii_of_string s) with
  | [] => Int 0
  | l =>
      match non_decimal_literal l with
      | Some v => to_binary64 false v 1
      | None =>
          let (negative, body) := split_sign l in
          if (string_of_list_ascii body =? "Infinity")%string
          then Infinity negative
          else
            match unsigned_decimal_literal body with
            | Some (m, e) => of_decimal negative m e
            | None => NaN
            end
      end
  end.

(** [Number.isInteger(x)]. *)
Definition isInteger (x : number) : bool :=
  match x with
  | Int _ | NegZero => true
  | _ => false
  end.

(** The value of an integral number. *)
Definition integer_value (x : number) : Z :=
  match x with
  | Int z => z
  | _ => 0
  end.

(** A finite number as [(z, k)] with value [z / 2^k]. *)
Definition finite_parts (x : number) : option (Z * Z) :=
  match x with
  | NegZero => Some (0, 0)
  | Int z => Some (z, 0)
  | Frac s m k => Some (signed s (Zpos m), Zpos k)
  | _ => None
  end.

(** [x < y] on numbers. *)
Definition lt (x y : number) : bool :=
  match x, y with
  | NaN, _ | _, NaN => false
  | Infinity true, Infinity true => false
  | Infinity true, _ => true
  | _, Infinity true => false
  | Infinity false, _ => false
  | _, Infinity false => true
  | _, _ =>
      match finite_parts x, finite_parts y with
      | Some (a, j), Some (b, k) => a * 2 ^ k <? b * 2 ^ j
      | _, _ => false
      end
  end.

(** ToBoolean on numbers. *)
Definition number_truthy (x : number) : bool :=
  match x with
  | NaN | NegZero | Int 0 => false
  | _ => true
  end.

(** [toLowerCase()], on the code units below 256. *)
Definition lower_char (c : ascii) : ascii :=
  let n := N_of_ascii c in
  if (((65 <=? n) && (n <=? 90))
      || ((192 <=? n) && (n <=? 222) && negb (n =? 215)))%N
  then ascii_of_N (n + 32) else c.

Fixpoint toLowerCase (s : string) : string :=
  match s with
  | String c s' => String (lower_char c) (toLowerCase s')
  | EmptyString => EmptyString
  end.

(** The decimal rendering of a natural number ([toString()] of an
    unsigned chain integer). *)
Definition decimal (n : N) : string :=
  NilEmpty.string_of_uint (N.to_uint n).

End JS.

(** ** JavaScript values *)

Module Import Values.

(** What an object is an instance of, as far as the code asks. *)
Inductive Class : Type :=
| PlainObject
| ErrorObject            (* [Error] and its subclasses other than HttpError *)
| HttpErrorObject.       (* http-errors' [HttpError] *)

(** The values an [unknown] parameter or a thrown error can be. *)
Inductive Value : Type :=
| VUndefined
| VNull
| VBool (b : bool)
| VNumber (n : JS.number)
| VString (s : string)
| VArray (elems : list Value)
| VObject (cls : Class) (props : list (string * Value)).

(** ToBoolean. *)
Definition truthy (v : Value) : bool :=
  match v with
  | VUndefined | VNull => false
  | VBool b => b
  | VNumber n => JS.number_truthy n
  | VString s => negb (s =? "")
  | VArray _ | VObject _ _ => true
  end.

(** [typeof v]. *)
Definition typeof (v : Value) : string :=
  match v with
  | VUndefined => "undefined"
  | VBool _ => "boolean"
  | VNumber _ => "number"
  | VString _ => "string"
  | VNull | VArray _ | VObject _ _ => "object"
  end.

Fixpoint lookup (k : string) (props : list (string * Value)) : Value :=
  match props with
  | (k', v) :: props' => if k' =? k then v else lookup k props'
  | [] => VUndefined
  end.

(** Reading property [k] of [v], as a destructuring pattern does; a value
    without the property gives [undefined]. The code destructures only
    what a type guard has accepted, which is an object. *)
Definition get (v : Value) (k : string) : Value :=
  match v with
  | VObject _ props => lookup k props
  | _ => VUndefined
  end.

(** [v instanceof HttpError]. *)
Definition instanceof_HttpError (v : Value) : bool :=
  match v with
  | VObject HttpErrorObject _ => true
  | _ => false
  end.

End Values.

(** ** http-errors *)

Module HttpErrors.

Definition createError (status : Z) (message : string) : Value :=
  VObject HttpErrorObject
    [("message", VString message);
     ("status", VNumber (JS.Int status));
     ("statusCode", VNumber (JS.Int status));
     ("expose", VBool (status <? 500)%Z)].

(** [new BadRequest(message)]: the input error, HTTP 400. *)
Definition BadRequest (message : string) : Value := createError 400 message.

(** [new InternalServerError(message)]: the internal error, HTTP 500. *)
Definition InternalServerError (message : string) : Value :=
  createError 500 message.

End HttpErrors.

(** ** @polkadot/util and the type registry *)

Module Polkadot.

Local Open Scope Z_scope.

Definition is_hex_char (c : ascii) : bool :=
  match JS.hex_digit c with
  | Some _ => true
  | None => false
  end.

(** The characters after a leading [0x], when there is one. *)
Definition after_0x (value : string) : option string :=
  match value with
  | String a (String b digits) =>
      if (a =? "0")%char && (b =? "x")%char then Some digits else None
  | _ => None
  end.

(** [isHex(value)] with its default arguments (no bit length, length not
    ignored): ["0x"] or a match of [/^0x[a-fA-F0-9]+$/], of even length. *)
Definition isHex (value : string) : bool :=
  let isValidHex :=
    (value =? "0x")%string ||
    match after_0x value with
    | Some digits =>
        negb (digits =? "")%string
        && forallb is_hex_char (list_ascii_of_string digits)
    | None => false
    end in
  isValidHex && Nat.even (String.length value).

(** A byte array, one [Z] below 256 per byte. *)
Definition U8a : Type := list Z.

(** A block hash (H256): 32 bytes. *)
Definition BlockHash : Type := U8a.

Fixpoint hex_pairs (l : list ascii) : option U8a :=
  match l with
  | hi :: lo :: l' =>
      match JS.hex_digit hi, JS.hex_digit lo, hex_pairs l' with
      | Some h, Some d, Some bs => Some (16 * h + d :: bs)
      | _, _, _ => None
      end
  | [] => Some []
  | [_] => None
  end.

(** [hexToU8a(value)]: the bytes written after the [0x] prefix. *)
Definition hexToU8a (value : string) : option U8a :=
  match after_0x value with
  | Some digits => hex_pairs (list_ascii_of_string digits)
  | None => None
  end.

Definition hex_char (d : Z) : ascii :=
  ascii_of_N (Z.to_N (if d <? 10 then d + 48 else d + 87)).

(** [u8aToHex(bytes)]: [0x] and two lower-case digits per byte. *)
Definition u8aToHex (bytes : U8a) : string :=
  ("0x" ++ string_of_list_ascii
            (flat_map (fun b => [hex_char (b / 16); hex_char (b mod 16)]) bytes))%string.

(** [api.createType('BlockHash', value)] for a string: the 32 bytes the
    hex string encodes; anything else is refused with an [Error]. *)
Definition createType_BlockHash (value : string) : Value + BlockHash :=
  match hexToU8a value with
  | Some bytes =>
      if (List.length bytes =? 32)%nat then inr bytes
      else inl (VObject ErrorObject
                  [("message", VString "Expected input with 32 bytes")])
  | None => inl (VObject ErrorObject
                   [("message", VString "Expected hex input")])
  end.

(** A chain header, as far as the code reads it: its block number. *)
Record Header : Type := { number : N }.

(** [number.toNumber()]. *)
Definition toNumber (n : N) : JS.number := JS.Int (Z.of_N n).

(** The chain client: what each RPC answers, a rejection reason on the
    left. *)
Record Api : Type := {
  getBlockHash : JS.number -> Value + BlockHash;
  getHeader : Value + Header;
  getFinalizedHead : Value + BlockHash
}.

End Polkadot.

Import Polkadot HttpErrors.

(** ** Computations of the controller *)

(** The calls made to the chain client, in order. *)
Inductive RpcCall : Type :=
| CallGetBlockHash (n : JS.number)
| CallGetHeader
| CallGetFinalizedHead.

(** The state a computation threads: the RPC calls made so far and the
    local variable [blockNumber] of [getHashForBlock]. *)
Record Frame : Type := {
  calls : list RpcCall;
  blockNumber : option JS.number
}.

(** A computation that returns an [A] or throws a value. *)
Definition M (A : Type) : Type := Frame -> (Value + A) * Frame.

Definition ret {A} (a : A) : M A := fun st => (inr a, st).

Definition throw {A} (e : Value) : M A := fun st => (inl e, st).

Definition bind {A B} (m : M A) (k : A -> M B) : M B :=
  fun st =>
    match m st with
    | (inr a, st') => k a st'
    | (inl e, st') => (inl e, st')
    end.

(** [try { m } catch (err) { handler err }]. *)
Definition try_catch {A} (m : M A) (handler : Value -> M A) : M A :=
  fun st =>
    match m st with
    | (inl e, st') => handler e st'
    | r => r
    end.

Notation "x <- m ;; k" := (bind m (fun x => k))
  (at level 61, m at next level, right associativity).
Notation "m ;;; k" := (bind m (fun _ => k))
  (at level 61, right associativity).

Definition get_blockNumber : M (option JS.number) :=
  fun st => (inr (blockNumber st), st).

Definition set_blockNumber (n : option JS.number) : M unit :=
  fun st => (inr tt, {| calls := calls st; blockNumber := n |}).

(** An awaited RPC: the call is recorded and the answer returned or thrown. *)
Definition rpc {A} (call : RpcCall) (answer : Value + A) : M A :=
  fun st =>
    (answer, {| calls := (calls st ++ [call])%list; blockNumber := blockNumber st |}).

(** Running a computation from a fresh frame: its result and the RPC calls
    it made. *)
Definition run {A} (m : M A) : (Value + A) * list RpcCall :=
  let (r, st) := m {| calls := []; blockNumber := None |} in (r, calls st).

(** ** AbstractController *)

Module AbstractController.

Section Controller.

(** [this.api], and the type guard of [../types/errors]. *)
Variable api : Api.
Variable isBasicLegacyError : Value -> bool.

Definition parseNumberOrThrow (n : string) (errorMessage : string)
  : M JS.number :=
  let num := JS.Number n in
  if negb (JS.isInteger num) || JS.lt num (JS.Int 0) then
    throw (BadRequest errorMessage)
  else ret num.

Definition verifyAndCastOr (name : string) (str : Value)
    (or : option JS.number) : M (option JS.number) :=
  if negb (truthy str) then ret or
  else
    match str with
    | VString s =>
        num <- parseNumberOrThrow s
                 (name ++ " query param is an invalid number") ;;
        ret (Some num)
    | _ =>
        throw (BadRequest
          ("Incorrect argument quantity or type passed in for " ++ name
           ++ " query param"))
    end.

(** The [try] block of [getHashForBlock]. *)
Definition getHashForBlock_try (blockId : string) : M BlockHash :=
  let isHexStr := isHex blockId in
  if isHexStr && (String.length blockId =? 66)%nat then
    fun st => (createType_BlockHash blockId, st)
  else if isHexStr then
    throw (BadRequest
      ("Cannot get block hash for " ++ blockId ++ ". "
       ++ "Hex string block IDs must be 32-bytes (66-characters) in length."))
  else if substring 0 2 blockId =? "0x" then
    throw (BadRequest
      ("Cannot get block hash for " ++ blockId ++ ". "
       ++ "Hex string block IDs must be a valid hex string "
       ++ "and must be 32-bytes (66-characters) in length."))
  else
    num <- try_catch
             (parseNumberOrThrow blockId "Invalid block number")
             (fun _ =>
                throw (BadRequest
                  ("Cannot get block hash for " ++ blockId ++ ". "
                   ++ "Block IDs must be either 32-byte hex strings or non-negative decimal integers."))) ;;
    set_blockNumber (Some num) ;;;
    rpc (CallGetBlockHash num) (getBlockHash api num).

(** Its [catch] block. *)
Definition getHashForBlock_catch (blockId : string) (err : Value)
  : M BlockHash :=
  if instanceof_HttpError err then throw err
  else
    header <- try_catch
                (rpc CallGetHeader (getHeader api))
                (fun _ =>
                   throw (InternalServerError
                     "Failed while trying to get the latest header.")) ;;
    blockNumber <- get_blockNumber ;;
    if match blockNumber with
       | Some n => JS.number_truthy n && JS.lt (toNumber (number header)) n
       | None => false
       end
    then
      throw (BadRequest
        ("Specified block number is larger than the current largest block. "
         ++ "The largest known block number is "
         ++ JS.decimal (number header) ++ "."))
    else if isBasicLegacyError err then throw err
    else
      throw (InternalServerError
        ("Cannot get block hash for " ++ blockId ++ ".")).

Definition getHashForBlock (blockId : string) : M BlockHash :=
  set_blockNumber None ;;;
  try_catch (getHashForBlock_try blockId) (getHashForBlock_catch blockId).

Definition getHashFromAt (at_ : Value) : M BlockHash :=
  match at_ with
  | VString s => getHashForBlock s
  | _ => rpc CallGetFinalizedHead (getFinalizedHead api)
  end.

End Controller.

End AbstractController.

(** ** Express handlers *)

Module Express.

(** What a handler reads of the response object. *)
Record Response : Type := { headersSent : bool }.

(** What a handler does to the response and to the middleware chain. *)
Inductive Effect : Type :=
| Status (code : Z)           (* [res.status(code)] *)
| Send (body : Value)         (* [res.send(body)] *)
| Next (err : Value).         (* [next(err)] *)

(** How the call of a request handler ends: it throws, it returns
    something that is not a promise, or it returns a promise that is
    fulfilled, rejected, or never settled. *)
Inductive Completion : Type :=
| Throws (err : Value)
| Returns
| Fulfils
| Rejects (err : Value)
| Pends.

(** The promise an [async] function returns. *)
Inductive Promise : Type :=
| Fulfilled
| Rejected (reason : Value)
| Pending.

Section Handlers.

Variable Request : Type.

(** A request handler, by what it does when called: its effects (its own
    calls of [next] among them) and how it ends. *)
Definition RequestHandler : Type :=
  Request -> Response -> list Effect * Completion.

(** [catchWrap(cb)]: [try { await cb(req, res, next) } catch (err)
    { next(err) }] in an [async] function. *)
Definition catchWrap (cb : RequestHandler)
  : Request -> Response -> list Effect * Promise :=
  fun req res =>
    let (effects, completion) := cb req res in
    match completion with
    | Throws err | Rejects err => ((effects ++ [Next err])%list, Fulfilled)
    | Returns | Fulfils => (effects, Fulfilled)
    | Pends => (effects, Pending)
    end.

(** The type guard of [../../types/errors]. *)
Variable isTxLegacyError : Value -> bool.

Definition txErrorMiddleware (err : Value) (res : Response) : list Effect :=
  if headersSent res || negb (isTxLegacyError err) then [Next err]
  else
    let error := get err "error" in
    let data := get err "data" in
    let cause := get err "cause" in
    let stack := get err "stack" in
    let transaction := get err "transaction" in
    [Status 500;
     Send (VObject PlainObject
             [("code", VNumber (JS.Int 500));
              ("error", error);
              ("data", data);
              ("transaction", transaction);
              ("cause", cause);
              ("stack", stack)])].

End Handlers.

Arguments RequestHandler Request : clear implicits.
Arguments catchWrap {Request} cb req res.

End Express.

(** ** The legacy error shapes *)

Module LegacyErrors.

Definition has (v : Value) (k : string) : bool :=
  match get v k with
  | VUndefined => false
  | _ => true
  end.

(** Modelled from the spec: the type guard [isBasicLegacyError] of
    [src/types/errors], which is not among the sources. The spec gives the
    upstream basic error as [{error, data, cause}] and says the source
    discriminates error shapes by field presence. *)
Definition isBasicLegacyError (v : Value) : bool :=
  has v "error" && has v "data" && has v "cause".

(** Modelled from the spec: the type guard [isTxLegacyError] of
    [src/types/errors], which is not among the sources. The spec gives the
    upstream transaction error as [{error, data, cause, transaction,
    stack}], told apart by field presence. *)
Definition isTxLegacyError (v : Value) : bool :=
  has v "error" && has v "data" && has v "cause"
  && has v "transaction" && has v "stack".

End LegacyErrors.

(** ** The spec's reading of a block height *)

Module Spec.

(** The height the spec's words give a string: a non-negative base-10
    integer, that is one or more decimal digits and nothing else; to be
    compared with what [parseNumberOrThrow] accepts. *)
Definition decimal_height (s : string) : option Z :=
  option_map Z.of_uint (NilZero.uint_of_string s).

End Spec.

(** ** The number sanitizer *)

Module Sanitize.

(** Modelled from the spec: the values [sanitizeNumbers] of [src/sanitize]
    works on; that file is not among the sources. A JSON value with, among
    its leaves, the chain-native big integers. *)
Inductive JSONValue : Type :=
| JNull
| JBool (b : bool)
| JNumber (n : JS.number)            (* a plain small integer or float *)
| JString (s : string)
| JBigInt (z : Z)                    (* a chain-native big integer *)
| JSequence (elems : list JSONValue)
| JObject (fields : list (string * JSONValue)).

(** The canonical decimal string of an integer. *)
Definition canonical_decimal (z : Z) : string :=
  NilZero.string_of_int (Z.to_int z).

(** The integer a numeric string represents: an optional minus sign and
    one or more decimal digits. *)
Definition numeric_string (s : string) : option Z :=
  option_map Z.of_int (NilZero.int_of_string s).

(** Modelled from the spec: the value [sanitizeNumbers] of [src/sanitize]
    returns; that file is not among the sources. Objects and sequences
    are traversed, keys, order and length kept; a leaf that is a
    chain-native big integer or a numeric string becomes its canonical
    decimal string; every other leaf passes through unchanged. *)
Fixpoint sanitize (v : JSONValue) : JSONValue :=
  match v with
  | JBigInt z => JString (canonical_decimal z)
  | JString s =>
      match numeric_string s with
      | Some z => JString (canonical_decimal z)
      | None => JString s
      end
  | JSequence elems => JSequence (map sanitize elems)
  | JObject fields =>
      JObject (map (fun kv => let (k, x) := kv : string * JSONValue in
                              (k, sanitize x)) fields)
  | JNull | JBool _ | JNumber _ => v
  end.

(** The shape of a value: its nesting, the keys of its objects in order,
    the lengths of its sequences. *)
Inductive Shape : Type :=
| SLeaf
| SSequence (elems : list Shape)
| SObject (fields : list (string * Shape)).

Fixpoint shape (v : JSONValue) : Shape :=
  match v with
  | JSequence elems => SSequence (map shape elems)
  | JObject fields =>
      SObject (map (fun kv => let (k, x) := kv : string * JSONValue in
                              (k, shape x)) fields)
  | _ => SLeaf
  end.

(** A leaf the sanitizer does not take for a number. *)
Definition non_numeric_leaf (v : JSONValue) : bool :=
  match v with
  | JNull | JBool _ | JNumber _ => true
  | JString s =>
      match numeric_string s with
      | Some _ => false
      | None => true
      end
  | _ => false
  end.

(** The values directly inside a value: the elements of a sequence, the
    values of the fields of an object, in order. *)
Definition children (v : JSONValue) : list JSONValue :=
  match v with
  | JSequence elems => elems
  | JObject fields => map snd fields
  | _ => []
  end.

(** The value found by going down [v], at each step to the child at the
    given position. *)
Fixpoint at_path (path : list nat) (v : JSONValue) : option JSONValue :=
  match path with
  | [] => Some v
  | i :: path' =>
      match nth_error (children v) i with
      | Some child => at_path path' child
      | None => None
      end
  end.

(** Modelled from the spec: the rewriting of one leaf of [sanitizeNumbers]
    ([src/sanitize], not among the sources) to its canonical decimal
    string; a leaf that is neither a chain-native big integer nor a
    numeric string cannot be sanitized, and the rewriting throws. *)
Definition canonical_leaf (v : JSONValue) : Value + string :=
  match v with
  | JBigInt z => inr (canonical_decimal z)
  | JString s =>
      match numeric_string s with
      | Some z => inr (canonical_decimal z)
      | None => inl (VObject ErrorObject [("message", VString "Not a number")])
      end
  | _ => inl (VObject ErrorObject [("message", VString "Not a number")])
  end.

(** One call per element, in order; the first throw ends the loop. *)
Definition traverse {A B : Type} (f : A -> Value + B)
  : list A -> Value + list B :=
  fix go (l : list A) : Value + list B :=
    match l with
    | [] => inr []
    | x :: l' =>
        match f x with
        | inl err => inl err
        | inr y =>
            match go l' with
            | inl err => inl err
            | inr ys => inr (y :: ys)
            end
        end
    end.

(** Modelled from the spec: [sanitizeNumbers] of [src/sanitize] (not among
    the sources) as a call that could throw. It goes through objects and
    sequences, a throw inside ends it; on a leaf it tries the rewriting
    and, when that throws, lets the leaf pass through unchanged. *)
Fixpoint sanitizeNumbers (v : JSONValue) : Value + JSONValue :=
  match v with
  | JSequence elems =>
      match traverse sanitizeNumbers elems with
      | inl err => inl err
      | inr elems' => inr (JSequence elems')
      end
  | JObject fields =>
      match traverse
              (fun kv => let (k, x) := kv : string * JSONValue in
                         match sanitizeNumbers x with
                         | inl err => inl err
                         | inr x' => inr (k, x')
                         end) fields with
      | inl err => inl err
      | inr fields' => inr (JObject fields')
      end
  | _ =>
      match canonical_leaf v with
      | inr s => inr (JString s)
      | inl _ => inr v
      end
  end.

(** [sanitizedSend(res, body)], by the body [res.send] is given, when the
    sanitizer does not throw. *)
Definition sanitizedSend (body : JSONValue) : Value + JSONValue :=
  sanitizeNumbers body.

End Sanitize.

(** ** Decimal digit strings *)

Module Digits.

Import JS.

(** A character [Number] reads as a decimal digit. *)
Definition decimal_char (c : ascii) : Prop := digit 10 c <> None.

(** The digits of a decimal numeral, most significant first. *)
Fixpoint uint_digits (d : Decimal.uint) : list Z :=
  match d with
  | Decimal.Nil => []
  | Decimal.D0 d => 0 :: uint_digits d
  | Decimal.D1 d => 1 :: uint_digits d
  | Decimal.D2 d => 2 :: uint_digits d
  | Decimal.D3 d => 3 :: uint_digits d
  | Decimal.D4 d => 4 :: uint_digits d
  | Decimal.D5 d => 5 :: uint_digits d
  | Decimal.D6 d => 6 :: uint_digits d
  | Decimal.D7 d => 7 :: uint_digits d
  | Decimal.D8 d => 8 :: uint_digits d
  | Decimal.D9 d => 9 :: uint_digits d
  end.

End Digits.

(** ** Mounting routes *)

Module Routing.

Import Express.

Section Routes.

Variable Request : Type.

(** A GET route of a router: its path and the handler mounted there. *)
Record Route : Type := {
  route_path : string;
  route_handler : Request -> Response -> list Effect * Promise
}.

(** The controller's private router, by the routes mounted on it, in the
    order of mounting. *)
Definition Router : Type := list Route.

(** [router.get(path, handler)]. *)
Definition router_get (router : Router) (path : string)
    (handler : Request -> Response -> list Effect * Promise) : Router :=
  (router ++ [{| route_path := path; route_handler := handler |}])%list.

(** [safeMountAsyncGetHandlers(pathsAndHandlers)] of a controller whose
    base path is [path]: the loop over the pairs, on the router. *)
Definition safeMountAsyncGetHandlers (path : string)
    (pathsAndHandlers : list (string * RequestHandler Request))
    (router : Router) : Router :=
  fold_left
    (fun router pathAndHandler =>
       let (pathSuffix, handler) :=
         pathAndHandler : string * RequestHandler Request in
       router_get router (path ++ pathSuffix) (catchWrap handler))
    pathsAndHandlers router.

End Routes.

Arguments route_path {Request} r.
Arguments route_handler {Request} r.
Arguments router_get {Request} router path handler.
Arguments safeMountAsyncGetHandlers {Request} path pathsAndHandlers router.

End Routing.

(** ** PalletsStakingProgressController *)

Module PalletsStakingProgressController.

Import Express Routing AbstractController.

(** The request, as far as the handlers read it: [req.params.number]. *)
Record INumberParam : Type := { params_number : string }.

Section Controller.

(** [this.api], the type guard of [../types/errors], the service
    ([derivePalletStakingProgress], with what it resolves or rejects with
    for a hash) and [sanitizeNumbers] of [../sanitize]; the last three are
    not among the sources. *)
Variable api : Api.
Variable isBasicLegacyError : Value -> bool.
Variable Progress : Type.
Variable derivePalletStakingProgress : BlockHash -> Value + Progress.
Variable sanitizeNumbers : Progress -> Value.

(** [await] of a promise that is not an RPC of the chain client. *)
Definition await {A} (settled : Value + A) : M A := fun st => (settled, st).

(** [sanitizedSend(res, body)]: [res.send(sanitizeNumbers(body))]. *)
Definition sanitizedSend (body : Progress) : list Effect :=
  [Send (sanitizeNumbers body)].

(** An [async] handler that writes to the response as its last step, once
    everything it awaits has settled: it is fulfilled after those effects,
    or rejected before any. The answers of the chain client and of the
    service are given settled, so a run in which an awaited promise never
    settles, and the handler stays pending, is not among the runs
    described; nothing here says that a handler ends. *)
Definition async (body : M (list Effect)) : list Effect * Completion :=
  match fst (run body) with
  | inr effects => (effects, Fulfils)
  | inl err => ([], Rejects err)
  end.

(** The body of [getStakingInfo]. *)
Definition getStakingInfo_body : M (list Effect) :=
  hash <- rpc CallGetFinalizedHead (getFinalizedHead api) ;;
  progress <- await (derivePalletStakingProgress hash) ;;
  ret (sanitizedSend progress).

Definition getStakingInfo : RequestHandler INumberParam :=
  fun _req _res => async getStakingInfo_body.

(** The body of [getStakingInfoAtBlock]. *)
Definition getStakingInfoAtBlock_body (number : string) : M (list Effect) :=
  hash <- getHashForBlock api isBasicLegacyError number ;;
  progress <- await (derivePalletStakingProgress hash) ;;
  ret (sanitizedSend progress).

Definition getStakingInfoAtBlock : RequestHandler INumberParam :=
  fun req _res => async (getStakingInfoAtBlock_body (params_number req)).

(** The base path the constructor gives [super]. *)
Definition path : string := "/staking-info".

Definition initRoutes (router : Router INumberParam) : Router INumberParam :=
  safeMountAsyncGetHandlers path
    [("", getStakingInfo); ("/:number", getStakingInfoAtBlock)]
    router.

(** The router of a new controller: the constructor calls [initRoutes] on
    the empty router. *)
Definition router : Router INumberParam := initRoutes [].

End Controller.

End PalletsStakingProgressController.

(** ** Chain clients and faults to run the code on *)

Module Fixtures.

Definition hash_at (height : Z) : BlockHash := repeat (height mod 256)%Z 32.

Definition rpc_error (message : string) : Value :=
  VObject ErrorObject [("message", VString message)].

(** A chain client whose best block is [best]: it has the hash of every
    height up to [best] and rejects a lookup of any other. *)
Definition chain (best : N) : Api := {|
  getBlockHash := fun n =>
    if JS.isInteger n && (0 <=? JS.integer_value n)%Z
       && (JS.integer_value n <=? Z.of_N best)%Z
    then inr (hash_at (JS.integer_value n))
    else inl (rpc_error "Unable to retrieve header and parent from supplied hash");
  getHeader := inr {| number := best |};
  getFinalizedHead := inr (hash_at (Z.of_N best))
|}.

(** A chain client at [best] that rejects every hash lookup with [fault]. *)
Definition faulty_chain (best : N) (fault : Value) : Api := {|
  getBlockHash := fun _ => inl fault;
  getHeader := inr {| number := best |};
  getFinalizedHead := inr (hash_at (Z.of_N best))
|}.

(** A fault of the basic legacy shape. *)
Definition legacy_fault : Value :=
  VObject PlainObject
    [("error", VString "Unable to retrieve block hash");
     ("data", VString "chain_getBlockHash");
     ("cause", VString "connection lost")].

(** A fault of the transaction shape. *)
Definition tx_fault : Value :=
  VObject PlainObject
    [("error", VString "Failed to parse a tx");
     ("data", VString "0x00");
     ("cause", VString "createType(ExtrinsicV4)");
     ("stack", VString "Error: createType(ExtrinsicV4)");
     ("transaction", VString "0x00")].

End Fixtures.

(** ** A staking service to run the controller on *)

Module StakingFixtures.

(** What the service resolves with, cut down to the active era. *)
Definition Progress : Type := N.

(** A service that knows the era of every block but one whose hash starts
    with a zero byte. *)
Definition derivePalletStakingProgress (hash : BlockHash) : Value + Progress :=
  match hash with
  | 0%Z :: _ => inl (VObject ErrorObject [("message", VString "No era")])
  | b :: _ => inr (Z.to_N b)
  | [] => inl (VObject ErrorObject [("message", VString "No hash")])
  end.

Definition sanitizeNumbers (progress : Progress) : Value :=
  VObject PlainObject [("activeEra", VString (JS.decimal progress))].

End StakingFixtures.

(** * Properties *)

Import AbstractController.

(** ** Hex strings and the bytes they encode *)

Lemma hex_digit_lower (c : ascii) (d : Z) :
  JS.hex_digit c = Some d ->
  (0 <= d < 16)%Z /\ hex_char d = JS.lower_char c.
Proof.
  intros H.
  destruct c as [[] [] [] [] [] [] [] []]; vm_compute in H;
    try discriminate H; injection H as <-; (split; [lia | reflexivity]).
Qed.

Lemma length_list_ascii_of_string (s : string) :
  List.length (list_ascii_of_string s) = String.length s.
Proof.
  induction s as [|c s IH]; simpl; congruence.
Qed.

Lemma lower_list_ascii (s : string) :
  string_of_list_ascii (map JS.lower_char (list_ascii_of_string s))
  = JS.toLowerCase s.
Proof.
  induction s as [|c s IH]; simpl; congruence.
Qed.

Lemma hex_pairs_lower (n : nat) :
  forall l : list ascii,
    List.length l = (2 * n)%nat ->
    forallb is_hex_char l = true ->
    exists bs : U8a,
      hex_pairs l = Some bs /\
      List.length bs = n /\
      flat_map (fun b => [hex_char (b / 16); hex_char (b mod 16)]) bs
      = map JS.lower_char l.
Proof.
  induction n as [|n IH]; intros l Hlen Hall.
  - destruct l; [|discriminate Hlen]. exists []. repeat split.
  - destruct l as [|hi [|lo l]]; simpl in Hlen; try lia.
    simpl in Hall. apply andb_prop in Hall as [Hhi Hall].
    apply andb_prop in Hall as [Hlo Hall].
    unfold is_hex_char in Hhi, Hlo.
    destruct (JS.hex_digit hi) as [h|] eqn:Eh; [|discriminate Hhi].
    destruct (JS.hex_digit lo) as [d|] eqn:Ed; [|discriminate Hlo].
    destruct (IH l ltac:(lia) Hall) as (bs & Hbs & Hn & Hflat).
    destruct (hex_digit_lower _ _ Eh) as [Hh Lh].
    destruct (hex_digit_lower _ _ Ed) as [Hd Ld].
    exists ((16 * h + d)%Z :: bs).
    repeat split.
    + cbn [hex_pairs]. rewrite Eh, Ed, Hbs. reflexivity.
    + simpl. congruence.
    + cbn [flat_map map app]. rewrite Hflat.
      replace (16 * h + d)%Z with (d + h * 16)%Z by lia.
      rewrite Z.div_add, Z.mod_add by lia.
      rewrite Z.div_small, Z.mod_small by lia.
      simpl. congruence.
Qed.

Lemma after_0x_spec (value digits : string) :
  after_0x value = Some digits -> value = String "0" (String "x" digits).
Proof.
  destruct value as [|a [|b r]]; simpl; try discriminate.
  destruct (Ascii.eqb_spec a "0"), (Ascii.eqb_spec b "x"); simpl;
    try discriminate.
  intros [= <-]. subst. reflexivity.
Qed.

Lemma isHex_digits (value : string) :
  isHex value = true ->
  exists digits,
    after_0x value = Some digits /\
    forallb is_hex_char (list_ascii_of_string digits) = true /\
    Nat.even (String.length digits) = true.
Proof.
  unfold isHex. intros H. apply andb_prop in H as [Hvalid Heven].
  apply orb_prop in Hvalid as [H0x|Hre].
  - apply String.eqb_eq in H0x. subst. exists EmptyString. repeat split.
  - destruct (after_0x value) as [digits|] eqn:E; [|discriminate Hre].
    apply andb_prop in Hre as [_ Hall].
    exists digits. repeat split; trivial.
    apply after_0x_spec in E. subst. exact Heven.
Qed.

Lemma isHex_prefix (value : string) :
  isHex value = true -> substring 0 2 value = "0x".
Proof.
  intros H. destruct (isHex_digits _ H) as (digits & E & _).
  apply after_0x_spec in E. subst. simpl. destruct digits; reflexivity.
Qed.

(** ** Numbers *)

Section NumberFacts.

Import JS Digits.
Local Open Scope Z_scope.

Lemma dyadic_pow2 (s : bool) (k : positive) :
  forall p : positive, dyadic s (p * 2 ^ k)%positive k = Int (signed s (Zpos p)).
Proof.
  induction k as [|k IH] using Pos.peano_ind; intros p.
  - rewrite Pos.pow_1_r. rewrite Pos.mul_comm. reflexivity.
  - rewrite Pos.pow_succ_r.
    replace (p * (2 * 2 ^ k))%positive with (xO (p * 2 ^ k))%positive by lia.
    cbn [dyadic].
    destruct (Pos.succ k) as [q|q|] eqn:E.
    + rewrite <- E, Pos.pred_succ. apply IH.
    + rewrite <- E, Pos.pred_succ. apply IH.
    + lia.
Qed.

Lemma round_half_even_exact (n : Z) : round_half_even n 1 = n.
Proof.
  unfold round_half_even. rewrite Z.div_1_r, Z.mod_1_r. reflexivity.
Qed.

Lemma to_binary64_exact (z : Z) :
  0 <= z < 2 ^ 53 -> to_binary64 false z 1 = Int z.
Proof.
  intros Hz. unfold to_binary64.
  destruct (Z.eqb_spec z 0) as [->|Hnz]; [reflexivity|].
  assert (Hpos : 0 < z) by lia.
  pose proof (Z.log2_spec z Hpos) as [Hlo Hhi].
  pose proof (Z.log2_nonneg z) as Hnn.
  assert (Hlog : Z.log2 z < 53).
  { apply Z.log2_lt_pow2; lia. }
  assert (Hfl : floor_log2_ratio z 1 = Z.log2 z).
  { unfold floor_log2_ratio, scaled. change (Z.log2 1) with 0.
    rewrite Z.sub_0_r.
    destruct (Z.leb_spec 0 (Z.log2 z)); [|lia].
    rewrite Z.mul_1_l.
    destruct (Z.leb_spec (2 ^ Z.log2 z) z); [reflexivity|lia]. }
  rewrite Hfl.
  rewrite Z.max_l by lia.
  unfold scaled.
  destruct (Z.leb_spec 0 (Z.log2 z - 52)) as [Hu|Hu].
  - assert (Z.log2 z - 52 = 0) as -> by lia.
    cbv beta iota zeta.
    rewrite Z.pow_0_r, Z.mul_1_r, round_half_even_exact.
    change (0 <=? 0) with true. cbv iota.
    destruct (Z.leb_spec (2 ^ 1024) z) as [Hbig|_]; [|reflexivity].
    assert (2 ^ 53 < 2 ^ 1024) by (apply Z.pow_lt_mono_r; lia). lia.
  - cbv beta iota zeta. rewrite round_half_even_exact.
    destruct (Z.leb_spec 0 (Z.log2 z - 52)) as [?|_]; [lia|].
    destruct z as [|p|p]; try lia.
    remember (- (Z.log2 (Z.pos p) - 52)) as k eqn:Ek.
    destruct k as [|k|k]; try lia.
    rewrite <- Pos2Z.inj_pow, <- Pos2Z.inj_mul.
    cbn [Z.to_pos]. apply dyadic_pow2.
Qed.

Lemma decimal_char_facts (c : ascii) :
  decimal_char c ->
  is_white_space c = false /\
  (c =? "-")%char = false /\ (c =? "+")%char = false /\
  (c =? "I")%char = false /\
  ((c =? "x")%char || (c =? "X")%char) = false /\
  ((c =? "o")%char || (c =? "O")%char) = false /\
  ((c =? "b")%char || (c =? "B")%char) = false.
Proof.
  unfold decimal_char. intros H.
  destruct c as [[] [] [] [] [] [] [] []];
    try (exfalso; apply H; reflexivity); repeat split.
Qed.

Lemma of_uint_acc_digits (d : Decimal.uint) :
  forall acc : positive,
    Zpos (Pos.of_uint_acc d acc)
    = fold_left (fun a x => 10 * a + x) (uint_digits d) (Zpos acc).
Proof.
  induction d; intros acc; cbn [Pos.of_uint_acc uint_digits fold_left];
    try reflexivity; rewrite IHd; f_equal; lia.
Qed.

Lemma of_uint_digits (d : Decimal.uint) :
  Z.of_uint d = digits_value 10 (uint_digits d).
Proof.
  unfold Z.of_uint, digits_value.
  induction d; cbn [Pos.of_uint uint_digits fold_left]; try reflexivity;
    try exact IHd;
    cbn [Z.of_N]; rewrite of_uint_acc_digits; reflexivity.
Qed.

Lemma uint_of_string_span (s : string) :
  forall d : Decimal.uint,
    NilEmpty.uint_of_string s = Some d ->
    span_digits 10 (list_ascii_of_string s) = (uint_digits d, [])
    /\ Forall decimal_char (list_ascii_of_string s).
Proof.
  induction s as [|c s IH]; intros d H.
  - injection H as <-. split; [reflexivity | constructor].
  - cbn [NilEmpty.uint_of_string] in H.
    destruct (NilEmpty.uint_of_string s) as [d0|]; [|discriminate H].
    destruct (IH d0 eq_refl) as [Hspan Hall].
    apply uint_of_char_spec in H.
    cbn [list_ascii_of_string span_digits].
    repeat (destruct H as [[-> ->]|H]; [rewrite Hspan; split; [reflexivity|constructor; [discriminate|exact Hall]]|]).
    destruct H as [-> ->]. rewrite Hspan. split; [reflexivity|constructor; [discriminate|exact Hall]].
Qed.

Lemma drop_white_space_decimal (l : list ascii) :
  Forall decimal_char l -> drop_white_space l = l.
Proof.
  intros [|c l' Hc _]; [reflexivity|].
  cbn [drop_white_space].
  destruct (decimal_char_facts c Hc) as [-> _]. reflexivity.
Qed.

Lemma trim_decimal (l : list ascii) :
  Forall decimal_char l -> trim l = l.
Proof.
  intros H. unfold trim.
  rewrite (drop_white_space_decimal l H).
  rewrite (drop_white_space_decimal (rev l)) by (apply Forall_rev; exact H).
  apply rev_involutive.
Qed.

Lemma non_decimal_literal_decimal (l : list ascii) :
  Forall decimal_char l -> non_decimal_literal l = None.
Proof.
  intros H. destruct l as [|z [|c l]]; try reflexivity.
  inversion H as [|? ? _ H']; subst. inversion H' as [|? ? Hc _]; subst.
  destruct (decimal_char_facts c Hc) as (_ & _ & _ & _ & Hx & Ho & Hb).
  cbn [non_decimal_literal]. rewrite Hx, Ho, Hb.
  destruct (negb (z =? "0")%char); reflexivity.
Qed.

Lemma Number_decimal (s : string) (z : Z) :
  Spec.decimal_height s = Some z ->
  z < 2 ^ 53 ->
  Number s = Int z.
Proof.
  unfold Spec.decimal_height, NilZero.uint_of_string. intros H Hz.
  destruct s as [|c s]; [discriminate H|].
  destruct (NilEmpty.uint_of_string (String c s)) as [d|] eqn:E;
    [|discriminate H].
  injection H as <-.
  destruct (uint_of_string_span _ _ E) as [Hspan Hall].
  unfold Number. rewrite (trim_decimal _ Hall).
  cbn [list_ascii_of_string] in *.
  set (l := list_ascii_of_string s) in *.
  cbv iota.
  rewrite (non_decimal_literal_decimal _ Hall).
  inversion Hall as [|? ? Hc _]; subst.
  destruct (decimal_char_facts c Hc) as (_ & Hm & Hp & HI & _).
  unfold split_sign. rewrite Hm, Hp.
  cbn [string_of_list_ascii String.eqb]. rewrite HI.
  unfold unsigned_decimal_literal. rewrite Hspan.
  cbv beta iota. rewrite List.app_nil_r.
  destruct (uint_digits d) as [|x ds] eqn:Ed.
  { cbn [span_digits] in Hspan. unfold decimal_char in Hc.
    destruct (digit 10 c); [|discriminate Hspan].
    destruct (span_digits 10 l). discriminate Hspan. }
  cbn [List.length Z.of_nat Z.opp].
  unfold of_decimal. cbn [Z.leb Z.compare].
  rewrite Z.pow_0_r, Z.mul_1_r, <- Ed, <- of_uint_digits.
  apply to_binary64_exact. split; [|exact Hz].
  unfold Z.of_uint. apply N2Z.is_nonneg.
Qed.

End NumberFacts.

(** ** Running the resolver *)

Ltac unfold_run :=
  unfold run, getHashForBlock, getHashForBlock_try, getHashForBlock_catch,
    parseNumberOrThrow, bind, try_catch, set_blockNumber, get_blockNumber,
    rpc, throw, ret;
  cbn [calls blockNumber].

(** An HttpError thrown in the [try] block leaves [getHashForBlock] as it
    is, and nothing more is asked of the chain client. *)
Lemma getHashForBlock_rethrows api guard blockId err called :
  run (getHashForBlock_try api blockId) = (inl err, called) ->
  instanceof_HttpError err = true ->
  run (getHashForBlock api guard blockId) = (inl err, called).
Proof.
  unfold run, getHashForBlock, bind, try_catch, set_blockNumber.
  cbn [calls blockNumber].
  destruct (getHashForBlock_try api blockId _) as [[e|hash] st] eqn:E;
    intros [= -> <-] Hhttp.
  unfold getHashForBlock_catch. rewrite Hhttp. reflexivity.
Qed.

Lemma BadRequest_is_HttpError message :
  instanceof_HttpError (BadRequest message) = true.
Proof. reflexivity. Qed.

Lemma BadRequest_status message :
  get (BadRequest message) "status" = VNumber (JS.Int 400).
Proof. reflexivity. Qed.

Lemma InternalServerError_status message :
  get (InternalServerError message) "status" = VNumber (JS.Int 500).
Proof. reflexivity. Qed.

(** The three places of the [try] block that refuse an identifier. *)
Lemma try_wrong_length_hex api blockId :
  isHex blockId = true -> String.length blockId <> 66%nat ->
  run (getHashForBlock_try api blockId) =
  (inl (BadRequest
     ("Cannot get block hash for " ++ blockId ++ ". "
      ++ "Hex string block IDs must be 32-bytes (66-characters) in length.")),
   []).
Proof.
  intros Hhex Hlen. unfold_run. rewrite Hhex.
  apply Nat.eqb_neq in Hlen. rewrite Hlen. reflexivity.
Qed.

Lemma try_invalid_hex api blockId :
  isHex blockId = false -> substring 0 2 blockId = "0x" ->
  run (getHashForBlock_try api blockId) =
  (inl (BadRequest
     ("Cannot get block hash for " ++ blockId ++ ". "
      ++ "Hex string block IDs must be a valid hex string "
      ++ "and must be 32-bytes (66-characters) in length.")),
   []).
Proof.
  intros Hhex Hpre. unfold_run. rewrite Hhex, Hpre. reflexivity.
Qed.

Lemma try_invalid_number api blockId :
  isHex blockId = false -> substring 0 2 blockId <> "0x" ->
  negb (JS.isInteger (JS.Number blockId))
  || JS.lt (JS.Number blockId) (JS.Int 0) = true ->
  run (getHashForBlock_try api blockId) =
  (inl (BadRequest
     ("Cannot get block hash for " ++ blockId ++ ". "
      ++ "Block IDs must be either 32-byte hex strings or non-negative decimal integers.")),
   []).
Proof.
  intros Hhex Hpre Hbad. unfold_run. rewrite Hhex.
  apply String.eqb_neq in Hpre. rewrite Hpre. cbn [andb].
  rewrite Hbad. reflexivity.
Qed.

Lemma try_height api blockId :
  isHex blockId = false -> substring 0 2 blockId <> "0x" ->
  negb (JS.isInteger (JS.Number blockId))
  || JS.lt (JS.Number blockId) (JS.Int 0) = false ->
  getHashForBlock_try api blockId {| calls := []; blockNumber := None |} =
  (getBlockHash api (JS.Number blockId),
   {| calls := [CallGetBlockHash (JS.Number blockId)];
      blockNumber := Some (JS.Number blockId) |}).
Proof.
  intros Hhex Hpre Hok. unfold_run. rewrite Hhex.
  apply String.eqb_neq in Hpre. rewrite Hpre. cbn [andb].
  rewrite Hok. reflexivity.
Qed.

(** An identifier taken for a height: the chain client is asked for the
    hash at that number, and a rejection goes to the [catch] block. *)
Lemma getHashForBlock_height api guard blockId :
  isHex blockId = false -> substring 0 2 blockId <> "0x" ->
  negb (JS.isInteger (JS.Number blockId))
  || JS.lt (JS.Number blockId) (JS.Int 0) = false ->
  run (getHashForBlock api guard blockId) =
  match getBlockHash api (JS.Number blockId) with
  | inr hash => (inr hash, [CallGetBlockHash (JS.Number blockId)])
  | inl err =>
      let (r, st) :=
        getHashForBlock_catch api guard blockId err
          {| calls := [CallGetBlockHash (JS.Number blockId)];
             blockNumber := Some (JS.Number blockId) |} in
      (r, calls st)
  end.
Proof.
  intros Hhex Hpre Hok.
  unfold run, getHashForBlock, bind, try_catch, set_blockNumber.
  cbn [calls blockNumber].
  rewrite (try_height api blockId Hhex Hpre Hok).
  destruct (getBlockHash api (JS.Number blockId)); reflexivity.
Qed.

(** The [catch] block only adds to the calls made. *)
Lemma getHashForBlock_catch_calls api guard blockId err st :
  exists more,
    calls (snd (getHashForBlock_catch api guard blockId err st))
    = (calls st ++ more)%list.
Proof.
  unfold getHashForBlock_catch, bind, try_catch, rpc, get_blockNumber, throw.
  destruct (instanceof_HttpError err).
  - exists []. symmetry. apply app_nil_r.
  - destruct (getHeader api) as [e|header]; cbn [calls blockNumber snd].
    + eexists. reflexivity.
    + destruct (match blockNumber st with Some _ => _ | None => _ end);
        [|destruct (guard err)]; eexists; reflexivity.
Qed.

(** ** Block hashes *)

(** C3: for every valid 66-character hex string [h], [getHashForBlock]
    succeeds with the block hash made of the 32 bytes [h] writes: the hash
    reads back as [h] (in lower case, the case [u8aToHex] writes), and no
    call is made to the chain client. *)
Theorem getHashForBlock_hash_verbatim :
  forall (api : Api) (guard : Value -> bool) (h : string),
    isHex h = true ->
    String.length h = 66%nat ->
    exists hash : BlockHash,
      run (getHashForBlock api guard h) = (inr hash, []) /\
      hexToU8a h = Some hash /\
      List.length hash = 32%nat /\
      u8aToHex hash = JS.toLowerCase h.
Proof.
  intros api guard h Hhex Hlen.
  destruct (isHex_digits _ Hhex) as (digits & E & Hall & _).
  pose proof (after_0x_spec _ _ E) as ->.
  simpl in Hlen. injection Hlen as Hlen.
  pose proof (length_list_ascii_of_string digits) as Hlist.
  rewrite Hlen in Hlist.
  destruct (hex_pairs_lower 32 _ Hlist Hall) as (hash & Hpairs & Hn & Hflat).
  exists hash.
  assert (Hto : hexToU8a (String "0" (String "x" digits)) = Some hash).
  { unfold hexToU8a. rewrite E. exact Hpairs. }
  repeat split; trivial.
  - unfold_run. rewrite Hhex.
    cbn [String.length]. rewrite Hlen. cbn [Nat.eqb andb].
    unfold createType_BlockHash. rewrite Hto, Hn. reflexivity.
  - unfold u8aToHex. rewrite Hflat, lower_list_ascii. reflexivity.
Qed.

(** A hash written with upper-case digits: the bytes are kept, the case is
    not. *)
Lemma getHashForBlock_hash_verbatim_witness :
  let h := "0xABCDEF0123456789abcdef0123456789abcdef0123456789abcdef0123456789" in
  isHex h = true /\ String.length h = 66%nat /\
  exists hash : BlockHash,
    run (getHashForBlock (Fixtures.chain 10) LegacyErrors.isBasicLegacyError h)
    = (inr hash, []) /\
    hexToU8a h = Some hash /\
    List.length hash = 32%nat /\
    u8aToHex hash = JS.toLowerCase h.
Proof.
  split; [reflexivity|]. split; [reflexivity|].
  apply getHashForBlock_hash_verbatim; reflexivity.
Defined.

(** C4: every identifier that [isHex] accepts but that is not 66
    characters long (the bare ["0x"] among them), and every identifier
    that starts with [0x] and that [isHex] refuses, fails with a
    BadRequest (status 400); the chain client is asked nothing, so the
    string is never taken for a height. *)
Theorem getHashForBlock_rejects_bad_hex :
  forall (api : Api) (guard : Value -> bool) (blockId : string),
    (isHex blockId = true /\ String.length blockId <> 66%nat) \/
    (isHex blockId = false /\ substring 0 2 blockId = "0x") ->
    exists message,
      run (getHashForBlock api guard blockId) = (inl (BadRequest message), [])
      /\ get (BadRequest message) "status" = VNumber (JS.Int 400).
Proof.
  intros api guard blockId [[Hhex Hlen]|[Hhex Hpre]];
    eexists; (split; [|apply BadRequest_status]);
    eapply getHashForBlock_rethrows;
    eauto using try_wrong_length_hex, try_invalid_hex, BadRequest_is_HttpError.
Qed.

(** The bare prefix. *)
Lemma getHashForBlock_rejects_bad_hex_witness :
  (isHex "0x" = true /\ String.length "0x" <> 66%nat) /\
  exists message,
    run (getHashForBlock (Fixtures.chain 10) LegacyErrors.isBasicLegacyError "0x")
    = (inl (BadRequest message), [])
    /\ get (BadRequest message) "status" = VNumber (JS.Int 400).
Proof.
  assert (H : isHex "0x" = true /\ String.length "0x" <> 66%nat).
  { split; [reflexivity | discriminate]. }
  split; [exact H|].
  apply getHashForBlock_rejects_bad_hex. left. exact H.
Defined.

(** The spec's short hex identifier: odd length, so refused by [isHex],
    and refused by the resolver for its [0x] prefix. *)
Example short_hex_is_input_error :
  isHex "0xabc" = false /\
  run (getHashForBlock (Fixtures.chain 10) LegacyErrors.isBasicLegacyError "0xabc")
  = (inl (BadRequest
       "Cannot get block hash for 0xabc. Hex string block IDs must be a valid hex string and must be 32-bytes (66-characters) in length."),
     []).
Proof. split; reflexivity. Qed.

(** C7: the errors the resolver classifies itself (hex of the wrong
    length, invalid hex, invalid number) leave [getHashForBlock] as the
    very BadRequest the [try] block threw, and no call is made to the chain
    client: the header lookup of the [catch] block does not happen. *)
Theorem getHashForBlock_propagates_classified :
  forall (api : Api) (guard : Value -> bool) (blockId : string),
    (isHex blockId = true /\ String.length blockId <> 66%nat) \/
    (isHex blockId = false /\ substring 0 2 blockId = "0x") \/
    (isHex blockId = false /\ substring 0 2 blockId <> "0x" /\
     negb (JS.isInteger (JS.Number blockId))
     || JS.lt (JS.Number blockId) (JS.Int 0) = true) ->
    exists message,
      run (getHashForBlock_try api blockId) = (inl (BadRequest message), [])
      /\ run (getHashForBlock api guard blockId)
         = (inl (BadRequest message), []).
Proof.
  intros api guard blockId [[Hhex Hlen]|[[Hhex Hpre]|(Hhex & Hpre & Hbad)]];
    eexists; (split; [|eapply getHashForBlock_rethrows;
                        [|apply BadRequest_is_HttpError]]);
    eauto using try_wrong_length_hex, try_invalid_hex, try_invalid_number.
Qed.

(** A negative number. *)
Lemma getHashForBlock_propagates_classified_witness :
  exists message,
    run (getHashForBlock_try (Fixtures.chain 10) "-1")
    = (inl (BadRequest message), [])
    /\ run (getHashForBlock (Fixtures.chain 10)
              LegacyErrors.isBasicLegacyError "-1")
       = (inl (BadRequest message), []).
Proof.
  apply getHashForBlock_propagates_classified.
  right. right. split; [reflexivity|]. split; [discriminate | reflexivity].
Defined.

(** C9: for every [at] that is not a string, [getHashFromAt] is the
    finalized-head lookup and nothing else: one call, whose answer (the
    hash, or the fault) is the result; [at] is not looked at further. *)
Theorem getHashFromAt_not_string :
  forall (api : Api) (guard : Value -> bool) (at_ : Value),
    typeof at_ <> "string" ->
    run (getHashFromAt api guard at_)
    = (getFinalizedHead api, [CallGetFinalizedHead]).
Proof.
  intros api guard at_ H.
  destruct at_; try reflexivity. exfalso. apply H. reflexivity.
Qed.

(** No [at] in the query. *)
Lemma getHashFromAt_not_string_witness :
  typeof VUndefined <> "string" /\
  run (getHashFromAt (Fixtures.chain 10) LegacyErrors.isBasicLegacyError
         VUndefined)
  = (inr (Fixtures.hash_at 10), [CallGetFinalizedHead]).
Proof.
  split; [discriminate|].
  apply (getHashFromAt_not_string (Fixtures.chain 10)). discriminate.
Defined.

(** ** Heights *)

(** On a number [parseNumberOrThrow] lets through, the test of the [catch]
    block, [blockNumber && number.toNumber() < blockNumber], says that the
    requested height exceeds the height of the header. *)
Lemma exceeds_header (num : JS.number) (best : N) :
  negb (JS.isInteger num) || JS.lt num (JS.Int 0) = false ->
  JS.number_truthy num && JS.lt (toNumber best) num
  = (Z.of_N best <? JS.integer_value num)%Z.
Proof.
  intros H. apply orb_false_elim in H as [Hint Hneg].
  destruct num as [| |  |z| ]; try discriminate Hint.
  - simpl. symmetry. apply Z.ltb_ge. lia.
  - unfold JS.lt, toNumber in *. cbn [JS.finite_parts JS.integer_value] in *.
    rewrite Z.pow_0_r, !Z.mul_1_r in *. simpl in Hneg.
    apply Z.ltb_ge in Hneg.
    destruct z as [|p|p]; [| reflexivity | lia].
    simpl. symmetry. apply Z.ltb_ge. lia.
Qed.

(** C1, as the code has it: when the identifier is taken for a height and
    the hash lookup is rejected with [err], an [err] that is an HttpError
    is thrown on as it is; otherwise the header is fetched, and the result
    is an InternalServerError when that fails, a BadRequest naming the
    height of the header when the requested height exceeds it, [err]
    itself when it has the basic legacy shape, and an InternalServerError
    in every other case. *)
Theorem getHashForBlock_height_lookup_fails :
  forall (api : Api) (guard : Value -> bool) (blockId : string) (err : Value),
    isHex blockId = false ->
    substring 0 2 blockId <> "0x" ->
    negb (JS.isInteger (JS.Number blockId))
    || JS.lt (JS.Number blockId) (JS.Int 0) = false ->
    getBlockHash api (JS.Number blockId) = inl err ->
    run (getHashForBlock api guard blockId) =
    if instanceof_HttpError err then
      (inl err, [CallGetBlockHash (JS.Number blockId)])
    else
      (match getHeader api with
       | inl _ =>
           inl (InternalServerError
                  "Failed while trying to get the latest header.")
       | inr header =>
           if (Z.of_N (number header) <? JS.integer_value (JS.Number blockId))%Z
           then
             inl (BadRequest
               ("Specified block number is larger than the current largest block. "
                ++ "The largest known block number is "
                ++ JS.decimal (number header) ++ "."))
           else if guard err then inl err
           else
             inl (InternalServerError
                    ("Cannot get block hash for " ++ blockId ++ "."))
       end,
       [CallGetBlockHash (JS.Number blockId); CallGetHeader]).
Proof.
  intros api guard blockId err Hhex Hpre Hok Hfail.
  rewrite (getHashForBlock_height api guard blockId Hhex Hpre Hok), Hfail.
  unfold getHashForBlock_catch.
  destruct (instanceof_HttpError err); [reflexivity|].
  unfold bind, try_catch, rpc, get_blockNumber, throw. cbn [calls blockNumber].
  destruct (getHeader api) as [e|header]; [reflexivity|].
  cbn [calls blockNumber]. rewrite (exceeds_header _ _ Hok).
  destruct (Z.of_N (number header) <? _)%Z; [reflexivity|].
  destruct (guard err); reflexivity.
Qed.

(** The spec's scenario: height 12345678 asked of a chain at 9000000. *)
Lemma getHashForBlock_height_lookup_fails_witness :
  run (getHashForBlock (Fixtures.chain 9000000)
         LegacyErrors.isBasicLegacyError "12345678")
  = (inl (BadRequest
       "Specified block number is larger than the current largest block. The largest known block number is 9000000."),
     [CallGetBlockHash (JS.Int 12345678); CallGetHeader]).
Proof.
  exact (getHashForBlock_height_lookup_fails (Fixtures.chain 9000000)
           LegacyErrors.isBasicLegacyError "12345678"
           (Fixtures.rpc_error
              "Unable to retrieve header and parent from supplied hash")
           eq_refl ltac:(discriminate) eq_refl eq_refl).
Defined.

(** C1 as stated fails: a lookup of height 5 on a chain at 10, rejected
    with a fault of the basic legacy shape, does not end in an
    InternalServerError (nor in a BadRequest): the fault itself is thrown. *)
Lemma getHashForBlock_height_lookup_fails_counterexample :
  ~ (forall (api : Api) (guard : Value -> bool) (blockId : string)
            (err : Value) (header : Header),
       isHex blockId = false ->
       substring 0 2 blockId <> "0x" ->
       negb (JS.isInteger (JS.Number blockId))
       || JS.lt (JS.Number blockId) (JS.Int 0) = false ->
       getBlockHash api (JS.Number blockId) = inl err ->
       getHeader api = inr header ->
       (Z.of_N (number header) <? JS.integer_value (JS.Number blockId))%Z
       = false ->
       exists message,
         fst (run (getHashForBlock api guard blockId))
         = inl (InternalServerError message)).
Proof.
  intros H.
  destruct (H (Fixtures.faulty_chain 10 Fixtures.legacy_fault)
              LegacyErrors.isBasicLegacyError "5" Fixtures.legacy_fault
              {| number := 10 |} eq_refl ltac:(discriminate)
              eq_refl eq_refl eq_refl eq_refl) as [message Hrun].
  vm_compute in Hrun. discriminate Hrun.
Qed.

Example legacy_fault_is_rethrown :
  run (getHashForBlock (Fixtures.faulty_chain 10 Fixtures.legacy_fault)
         LegacyErrors.isBasicLegacyError "5")
  = (inl Fixtures.legacy_fault, [CallGetBlockHash (JS.Int 5); CallGetHeader]).
Proof. reflexivity. Qed.

(** A height up to the best block resolves to the hash the chain client
    has for it; the bound is inclusive. *)
Example height_at_head_resolves :
  run (getHashForBlock (Fixtures.chain 9000000)
         LegacyErrors.isBasicLegacyError "9000000")
  = (inr (Fixtures.hash_at 9000000), [CallGetBlockHash (JS.Int 9000000)]).
Proof. reflexivity. Qed.

(** ** The number path *)

Lemma decimal_height_not_hex (s : string) (z : Z) :
  Spec.decimal_height s = Some z ->
  isHex s = false /\ substring 0 2 s <> "0x".
Proof.
  unfold Spec.decimal_height, NilZero.uint_of_string. intros H.
  assert (Hpre : substring 0 2 s <> "0x").
  { destruct s as [|a s]; [discriminate H|].
    destruct (NilEmpty.uint_of_string (String a s)) as [d|] eqn:E;
      [|discriminate H].
    destruct (uint_of_string_span _ _ E) as [_ Hall].
    destruct s as [|b r]; [discriminate|].
    cbn [list_ascii_of_string] in Hall.
    inversion Hall as [|? ? _ Hall']; subst.
    inversion Hall' as [|? ? Hb _]; subst.
    cbn [substring]. intros [= _ ->]. apply Hb. reflexivity. }
  split; [|exact Hpre].
  destruct (isHex s) eqn:Hhex; [|reflexivity].
  contradiction Hpre. apply isHex_prefix. exact Hhex.
Qed.

(** C2, as the code has it: an identifier that [isHex] refuses and that
    does not start with [0x] goes through [Number]. When the number is not
    an integer or is negative, the result is a BadRequest and the chain
    client is asked nothing; otherwise the first (and, when it answers,
    only) call asks the chain client for the hash at that number. Every
    string of decimal digits below 2^53 is on this path with its value. *)
Theorem getHashForBlock_number_path :
  forall (api : Api) (guard : Value -> bool) (blockId : string),
    (isHex blockId = false ->
     substring 0 2 blockId <> "0x" ->
     if negb (JS.isInteger (JS.Number blockId))
        || JS.lt (JS.Number blockId) (JS.Int 0)
     then
       run (getHashForBlock api guard blockId)
       = (inl (BadRequest
            ("Cannot get block hash for " ++ blockId ++ ". "
             ++ "Block IDs must be either 32-byte hex strings or non-negative decimal integers.")),
          [])
     else
       (exists rest,
          snd (run (getHashForBlock api guard blockId))
          = CallGetBlockHash (JS.Number blockId) :: rest) /\
       (forall hash,
          getBlockHash api (JS.Number blockId) = inr hash ->
          run (getHashForBlock api guard blockId)
          = (inr hash, [CallGetBlockHash (JS.Number blockId)]))) /\
    (forall z,
       Spec.decimal_height blockId = Some z ->
       (z < 2 ^ 53)%Z ->
       isHex blockId = false /\ substring 0 2 blockId <> "0x" /\
       JS.Number blockId = JS.Int z /\
       negb (JS.isInteger (JS.Number blockId))
       || JS.lt (JS.Number blockId) (JS.Int 0) = false).
Proof.
  intros api guard blockId. split.
  - intros Hhex Hpre.
    destruct (negb (JS.isInteger (JS.Number blockId))
              || JS.lt (JS.Number blockId) (JS.Int 0)) eqn:Hnum.
    + eapply getHashForBlock_rethrows;
        [apply try_invalid_number; assumption|reflexivity].
    + rewrite (getHashForBlock_height api guard blockId Hhex Hpre Hnum).
      split.
      * destruct (getBlockHash api (JS.Number blockId)) as [err|hash].
        -- destruct (getHashForBlock_catch_calls api guard blockId err
                       {| calls := [CallGetBlockHash (JS.Number blockId)];
                          blockNumber := Some (JS.Number blockId) |})
             as [more Hmore].
           destruct (getHashForBlock_catch _ _ _ _ _) as [r st].
           exists more. exact Hmore.
        -- exists []. reflexivity.
      * intros hash ->. reflexivity.
  - intros z Hdec Hz.
    destruct (decimal_height_not_hex _ _ Hdec) as [Hhex Hpre].
    pose proof (Number_decimal _ _ Hdec Hz) as Hnum.
    repeat split; trivial.
    rewrite Hnum. cbn [JS.isInteger negb orb].
    unfold JS.lt. cbn [JS.finite_parts].
    apply Z.ltb_ge. rewrite Z.pow_0_r, !Z.mul_1_r.
    unfold Spec.decimal_height in Hdec.
    destruct (NilZero.uint_of_string blockId); [|discriminate Hdec].
    injection Hdec as <-. unfold Z.of_uint. apply N2Z.is_nonneg.
Qed.

(** C2 as stated fails: ["0b11"], a binary literal, is not a base-10
    integer, yet it is taken for height 3 and the chain client is asked for
    its hash. *)
Lemma getHashForBlock_number_path_counterexample :
  ~ (forall (api : Api) (guard : Value -> bool) (blockId : string),
       isHex blockId = false ->
       substring 0 2 blockId <> "0x" ->
       Spec.decimal_height blockId = None ->
       exists message,
         run (getHashForBlock api guard blockId)
         = (inl (BadRequest message), [])).
Proof.
  intros H.
  destruct (H (Fixtures.chain 9000000) LegacyErrors.isBasicLegacyError "0b11"
              eq_refl ltac:(discriminate) eq_refl) as [message Hrun].
  vm_compute in Hrun. discriminate Hrun.
Qed.

(** What [Number] takes for a height besides strings of decimal digits:
    the empty string, padding, exponents, binary and octal literals, a
    fraction of zeros, a sign. *)
Example heights_that_are_not_decimal :
  map (fun s => (Spec.decimal_height s, JS.Number s))
      [""; " 42 "; "1e3"; "0b11"; "0o17"; "12.0"; "+7"; "-0"]
  = [(None, JS.Int 0); (None, JS.Int 42); (None, JS.Int 1000);
     (None, JS.Int 3); (None, JS.Int 15); (None, JS.Int 12);
     (None, JS.Int 7); (None, JS.NegZero)].
Proof. reflexivity. Qed.

Example binary_literal_is_a_height :
  run (getHashForBlock (Fixtures.chain 9000000)
         LegacyErrors.isBasicLegacyError "0b11")
  = (inr (Fixtures.hash_at 3), [CallGetBlockHash (JS.Int 3)]).
Proof. reflexivity. Qed.

Example empty_identifier_is_height_zero :
  run (getHashForBlock (Fixtures.chain 9000000)
         LegacyErrors.isBasicLegacyError "")
  = (inr (Fixtures.hash_at 0), [CallGetBlockHash (JS.Int 0)]).
Proof. reflexivity. Qed.

(** What [Number] does not take for a height. *)
Example not_heights :
  map JS.Number ["-1"; "1.5"; "abc"; "1e400"; "Infinity"; "12px"; "1_000"; "."]
  = [JS.Int (-1); JS.Frac false 3 1; JS.NaN; JS.Infinity false;
     JS.Infinity false; JS.NaN; JS.NaN; JS.NaN].
Proof. reflexivity. Qed.

(** Doubles: the nearest one is taken, so a height above 2^53 can change. *)
Example heights_are_doubles :
  map JS.Number ["9007199254740993"; "1e23"; "0.1"; "5e-324"; "2e-324"]
  = [JS.Int 9007199254740992; JS.Int 99999999999999991611392;
     JS.Frac false 3602879701896397 55; JS.Frac false 1 1074; JS.Int 0].
Proof. vm_compute. reflexivity. Qed.

(** A negative number is refused before any call. *)
Lemma getHashForBlock_number_path_witness :
  run (getHashForBlock (Fixtures.chain 9000000)
         LegacyErrors.isBasicLegacyError "-1")
  = (inl (BadRequest
       "Cannot get block hash for -1. Block IDs must be either 32-byte hex strings or non-negative decimal integers."),
     []).
Proof.
  exact (proj1 (getHashForBlock_number_path (Fixtures.chain 9000000)
                  LegacyErrors.isBasicLegacyError "-1")
               eq_refl ltac:(discriminate)).
Defined.

(** ** Numeric query parameters *)

(** C10, as the code has it: a falsy parameter (missing, and also [null],
    [false], [0], [NaN] and the empty string) gives the caller's default; a
    truthy one that is not a string is refused with a BadRequest; a
    non-empty string is refused with a BadRequest when [Number] does not
    make it a non-negative integer, and gives that number otherwise. The
    chain client is never asked. *)
Theorem verifyAndCastOr_cases :
  forall (name : string) (str : Value) (or : option JS.number),
    (truthy str = false ->
     run (verifyAndCastOr name str or) = (inr or, [])) /\
    (truthy str = true -> typeof str <> "string" ->
     run (verifyAndCastOr name str or)
     = (inl (BadRequest
          ("Incorrect argument quantity or type passed in for " ++ name
           ++ " query param")),
        [])) /\
    (forall s, str = VString s -> s <> "" ->
     run (verifyAndCastOr name str or)
     = if negb (JS.isInteger (JS.Number s)) || JS.lt (JS.Number s) (JS.Int 0)
       then (inl (BadRequest (name ++ " query param is an invalid number")),
             [])
       else (inr (Some (JS.Number s)), [])).
Proof.
  intros name str or. unfold run, verifyAndCastOr. repeat split.
  - intros ->. reflexivity.
  - intros Ht Hty. rewrite Ht.
    destruct str; try reflexivity. contradiction Hty. reflexivity.
  - intros s -> Hs. cbn [truthy].
    apply String.eqb_neq in Hs. rewrite Hs. cbn [negb].
    unfold parseNumberOrThrow, bind, throw, ret.
    destruct (negb (JS.isInteger (JS.Number s))
              || JS.lt (JS.Number s) (JS.Int 0)); reflexivity.
Qed.

(** C10 as stated fails: [false] is there and is not a string, yet the
    default is returned and nothing is thrown. *)
Lemma verifyAndCastOr_cases_counterexample :
  ~ (forall (name : string) (str : Value) (or : option JS.number),
       str <> VUndefined -> typeof str <> "string" ->
       exists message,
         fst (run (verifyAndCastOr name str or)) = inl (BadRequest message)).
Proof.
  intros H.
  destruct (H "page" (VBool false) (Some (JS.Int 1))
              ltac:(discriminate) ltac:(discriminate)) as [message Hrun].
  discriminate Hrun.
Qed.

Example falsy_parameters_give_the_default :
  map (fun v => run (verifyAndCastOr "page" v (Some (JS.Int 1))))
      [VUndefined; VNull; VBool false; VNumber (JS.Int 0); VNumber JS.NaN;
       VString ""]
  = repeat (inr (Some (JS.Int 1)), []) 6.
Proof. reflexivity. Qed.

Example parameters_refused :
  map (fun v => fst (run (verifyAndCastOr "page" v (Some (JS.Int 1)))))
      [VArray [VString "1"; VString "2"]; VBool true; VString "1.5";
       VString "-3"; VString "two"]
  = [inl (BadRequest "Incorrect argument quantity or type passed in for page query param");
     inl (BadRequest "Incorrect argument quantity or type passed in for page query param");
     inl (BadRequest "page query param is an invalid number");
     inl (BadRequest "page query param is an invalid number");
     inl (BadRequest "page query param is an invalid number")].
Proof. reflexivity. Qed.

Example parameter_parsed :
  run (verifyAndCastOr "page" (VString "25") None)
  = (inr (Some (JS.Int 25)), []).
Proof. reflexivity. Qed.

(** ** Express handlers *)

Import Express.

(** C5: [txErrorMiddleware] answers with status 500 and the body [{code:
    500, error, data, transaction, cause, stack}], the fields read off the
    error, exactly when the headers are not sent yet and the error has the
    transaction shape; in every other case all it does is call [next] with
    the error it was given. *)
Theorem txErrorMiddleware_cases :
  forall (isTxLegacyError : Value -> bool) (err : Value) (res : Response),
    let body :=
      VObject PlainObject
        [("code", VNumber (JS.Int 500));
         ("error", get err "error");
         ("data", get err "data");
         ("transaction", get err "transaction");
         ("cause", get err "cause");
         ("stack", get err "stack")] in
    (txErrorMiddleware isTxLegacyError err res = [Status 500; Send body]
     <-> headersSent res = false /\ isTxLegacyError err = true) /\
    (txErrorMiddleware isTxLegacyError err res = [Next err]
     <-> ~ (headersSent res = false /\ isTxLegacyError err = true)) /\
    (txErrorMiddleware isTxLegacyError err res = [Status 500; Send body]
     \/ txErrorMiddleware isTxLegacyError err res = [Next err]).
Proof.
  intros guard err res body. unfold txErrorMiddleware.
  destruct (headersSent res), (guard err); cbn [orb negb];
    repeat split; try discriminate; try tauto; try intuition discriminate.
Qed.

(** The spec's scenario: a transaction fault on a response not yet
    started. *)
Example tx_fault_answer :
  txErrorMiddleware LegacyErrors.isTxLegacyError Fixtures.tx_fault
    {| headersSent := false |}
  = [Status 500;
     Send (VObject PlainObject
             [("code", VNumber (JS.Int 500));
              ("error", VString "Failed to parse a tx");
              ("data", VString "0x00");
              ("transaction", VString "0x00");
              ("cause", VString "createType(ExtrinsicV4)");
              ("stack", VString "Error: createType(ExtrinsicV4)")])].
Proof. reflexivity. Qed.

Example tx_fault_after_headers :
  txErrorMiddleware LegacyErrors.isTxLegacyError Fixtures.tx_fault
    {| headersSent := true |}
  = [Next Fixtures.tx_fault].
Proof. reflexivity. Qed.

(** C6: whatever the wrapped handler does, the promise of the wrapper is
    never rejected; when the handler throws or its promise is rejected
    with [err], the wrapper adds one call [next(err)] to what the handler
    did and is fulfilled; when the handler does not fail, the wrapper adds
    nothing. *)
Theorem catchWrap_delivers :
  forall (Request : Type) (cb : RequestHandler Request)
         (req : Request) (res : Response),
    (forall reason, snd (catchWrap cb req res) <> Rejected reason) /\
    (forall err,
       snd (cb req res) = Throws err \/ snd (cb req res) = Rejects err ->
       catchWrap cb req res
       = ((fst (cb req res) ++ [Next err])%list, Fulfilled)) /\
    ((forall err,
        snd (cb req res) <> Throws err /\ snd (cb req res) <> Rejects err) ->
     fst (catchWrap cb req res) = fst (cb req res)).
Proof.
  intros Request cb req res. unfold catchWrap.
  destruct (cb req res) as [effects [err| |  |err| ]]; cbn [fst snd];
    repeat split; try discriminate; try reflexivity.
  all: try (intros e [[= ->]|[= ->]]; reflexivity).
  all: try (intros e [H|H]; discriminate H).
  all: intros H; destruct (H err) as [H1 H2]; congruence.
Qed.

Example failing_handler_is_delivered_once :
  catchWrap (Request := unit)
    (fun _ _ => ([Status 200], Rejects (BadRequest "Invalid block number")))
    tt {| headersSent := false |}
  = ([Status 200; Next (BadRequest "Invalid block number")], Fulfilled).
Proof. reflexivity. Qed.

(** ** The number sanitizer *)

Section SanitizeFacts.

Import Sanitize.

(** Induction over a JSON value and the values nested in it. *)
Lemma JSONValue_nested_ind (P : JSONValue -> Prop) :
  P JNull ->
  (forall b, P (JBool b)) ->
  (forall n, P (JNumber n)) ->
  (forall s, P (JString s)) ->
  (forall z, P (JBigInt z)) ->
  (forall elems, Forall P elems -> P (JSequence elems)) ->
  (forall fields, Forall (fun kv => P (snd kv)) fields -> P (JObject fields)) ->
  forall v, P v.
Proof.
  intros HNull HBool HNumber HString HBig HSeq HObj.
  fix IH 1. intros [ |b|n|s|z|elems|fields].
  - exact HNull.
  - apply HBool.
  - apply HNumber.
  - apply HString.
  - apply HBig.
  - apply HSeq. induction elems as [|x elems IHe]; constructor.
    + apply IH.
    + exact IHe.
  - apply HObj. induction fields as [|[k x] fields IHf]; constructor.
    + apply IH.
    + exact IHf.
Qed.

(** A canonical decimal string is a numeric string, of the same value. *)
Lemma numeric_string_canonical (z : Z) :
  numeric_string (canonical_decimal z) = Some z.
Proof.
  unfold numeric_string, canonical_decimal.
  rewrite NilZero.isi.
  - cbn [option_map]. rewrite DecimalZ.of_to. reflexivity.
  - destruct z; cbn [Z.to_int]; intros [= H];
      exact (DecimalPos.Unsigned.to_uint_nonnil _ H).
  - destruct z; cbn [Z.to_int]; intros [= H];
      exact (DecimalPos.Unsigned.to_uint_nonnil _ H).
Qed.

Lemma sanitize_idempotent (v : JSONValue) :
  sanitize (sanitize v) = sanitize v.
Proof.
  induction v as [ |b|n|s|z|elems IH|fields IH] using JSONValue_nested_ind;
    cbn [sanitize]; try reflexivity.
  - destruct (numeric_string s) as [z|] eqn:E; cbn [sanitize].
    + rewrite numeric_string_canonical. reflexivity.
    + rewrite E. reflexivity.
  - rewrite numeric_string_canonical. reflexivity.
  - f_equal. rewrite map_map. apply map_ext_Forall. exact IH.
  - f_equal. rewrite map_map. apply map_ext_Forall.
    eapply Forall_impl; [|exact IH].
    intros [k x] H. cbn [snd] in H. rewrite H. reflexivity.
Qed.

Lemma sanitize_shape (v : JSONValue) : shape (sanitize v) = shape v.
Proof.
  induction v as [ |b|n|s|z|elems IH|fields IH] using JSONValue_nested_ind;
    cbn [sanitize shape]; try reflexivity.
  - destruct (numeric_string s); reflexivity.
  - f_equal. rewrite map_map. apply map_ext_Forall. exact IH.
  - f_equal. rewrite map_map. apply map_ext_Forall.
    eapply Forall_impl; [|exact IH].
    intros [k x] H. cbn [snd] in H. rewrite H. reflexivity.
Qed.

(** What is at a path of the sanitized value is the sanitized form of what
    was there. *)
Lemma children_sanitize (v : JSONValue) :
  children (sanitize v) = map sanitize (children v).
Proof.
  destruct v as [ |b|n|s|z|elems|fields]; cbn [sanitize children];
    try reflexivity.
  - destruct (numeric_string s); reflexivity.
  - rewrite !map_map. apply map_ext. intros [k x]. reflexivity.
Qed.

Lemma at_path_sanitize (path : list nat) :
  forall v : JSONValue,
    at_path path (sanitize v) = option_map sanitize (at_path path v).
Proof.
  induction path as [|i path IH]; intros v; cbn [at_path]; [reflexivity|].
  rewrite children_sanitize, nth_error_map.
  destruct (nth_error (children v) i) as [child|]; cbn [option_map].
  - apply IH.
  - reflexivity.
Qed.

Lemma traverse_all (A B : Type) (f : A -> Value + B) (g : A -> B)
    (l : list A) :
  Forall (fun x => f x = inr (g x)) l -> traverse f l = inr (map g l).
Proof.
  induction 1 as [|x l Hx _ IH]; cbn [traverse map]; [reflexivity|].
  rewrite Hx. fold (traverse f). rewrite IH. reflexivity.
Qed.

(** The sanitizer never throws: it returns, and what it returns is
    [sanitize v]. *)
Lemma sanitizeNumbers_returns (v : JSONValue) :
  sanitizeNumbers v = inr (sanitize v).
Proof.
  induction v as [ |b|n|s|z|elems IH|fields IH] using JSONValue_nested_ind;
    cbn [sanitizeNumbers sanitize canonical_leaf]; try reflexivity.
  - destruct (numeric_string s); reflexivity.
  - rewrite (traverse_all _ _ _ sanitize elems IH). reflexivity.
  - rewrite (traverse_all _ _ _
               (fun kv => let (k, x) := kv : string * JSONValue in
                          (k, sanitize x)) fields).
    + reflexivity.
    + eapply Forall_impl; [|exact IH].
      intros [k x] H. cbn [snd] in H. rewrite H. reflexivity.
Qed.

(** C8: the sanitizer never throws: on every value [v] it returns a value
    [w]. It is idempotent (sanitizing [w] returns [w]); [w] has the shape
    of [v] (keys, order, lengths); and leaf by leaf, wherever it is in
    [v]: a leaf that is not taken for a number is in [w] at the same
    place, unchanged, and a chain-native big integer or a numeric string
    is there as its canonical decimal string. *)
Theorem sanitize_idempotent_shape_preserving :
  forall v : JSONValue,
    exists w : JSONValue,
      sanitizeNumbers v = inr w /\
      sanitizeNumbers w = inr w /\
      shape w = shape v /\
      (forall path leaf,
         at_path path v = Some leaf -> non_numeric_leaf leaf = true ->
         at_path path w = Some leaf) /\
      (forall path z,
         at_path path v = Some (JBigInt z) ->
         at_path path w = Some (JString (canonical_decimal z))) /\
      (forall path s z,
         at_path path v = Some (JString s) -> numeric_string s = Some z ->
         at_path path w = Some (JString (canonical_decimal z))).
Proof.
  intros v. exists (sanitize v).
  split; [apply sanitizeNumbers_returns|].
  split; [rewrite sanitizeNumbers_returns, sanitize_idempotent; reflexivity|].
  split; [apply sanitize_shape|].
  repeat split.
  - intros path leaf Hat Hleaf. rewrite at_path_sanitize, Hat.
    cbn [option_map]. f_equal.
    destruct leaf as [ |b|n|s|z|elems|fields];
      cbn [non_numeric_leaf sanitize] in *; try reflexivity;
      try discriminate Hleaf.
    destruct (numeric_string s); [discriminate Hleaf | reflexivity].
  - intros path z Hat. rewrite at_path_sanitize, Hat. reflexivity.
  - intros path s z Hat Hnum. rewrite at_path_sanitize, Hat.
    cbn [option_map sanitize]. rewrite Hnum. reflexivity.
Qed.

(** Keys, order and lengths, spelled out. *)
Lemma sanitize_sequence_length (elems : list JSONValue) :
  exists elems',
    sanitize (JSequence elems) = JSequence elems'
    /\ List.length elems' = List.length elems.
Proof.
  exists (map sanitize elems). split; [reflexivity | apply length_map].
Qed.

Lemma sanitize_object_keys (fields : list (string * JSONValue)) :
  exists fields',
    sanitize (JObject fields) = JObject fields'
    /\ map fst fields' = map fst fields.
Proof.
  eexists. split; [reflexivity|].
  rewrite map_map. apply map_ext. intros [k x]. reflexivity.
Qed.

Example sanitize_example :
  sanitize
    (JObject [("at", JObject [("height", JString "007");
                              ("hash", JString "0xabc")]);
              ("free", JBigInt 340282366920938463463374607431768211455);
              ("nonce", JNumber (JS.Int 3));
              ("locks", JSequence [JBigInt (-5); JNull; JBool true])])
  = JObject [("at", JObject [("height", JString "7");
                             ("hash", JString "0xabc")]);
             ("free", JString "340282366920938463463374607431768211455");
             ("nonce", JNumber (JS.Int 3));
             ("locks", JSequence [JString "-5"; JNull; JBool true])].
Proof. reflexivity. Qed.

(** A leaf inside an object inside a sequence. *)
Example sanitize_nested_leaves :
  sanitizeNumbers
    (JSequence [JObject [("who", JString "stash"); ("own", JBigInt 12)];
                JBool false])
  = inr (JSequence [JObject [("who", JString "stash");
                             ("own", JString "12")];
                    JBool false]).
Proof. reflexivity. Qed.

End SanitizeFacts.

(** * More of the controller *)

(** ** What the resolver throws and whom it asks *)

Lemma createType_BlockHash_valid (h : string) :
  isHex h = true -> String.length h = 66%nat ->
  exists hash : BlockHash, createType_BlockHash h = inr hash.
Proof.
  intros Hhex Hlen.
  destruct (isHex_digits _ Hhex) as (digits & E & Hall & _).
  pose proof (after_0x_spec _ _ E) as ->.
  simpl in Hlen. injection Hlen as Hlen.
  pose proof (length_list_ascii_of_string digits) as Hlist.
  rewrite Hlen in Hlist.
  destruct (hex_pairs_lower 32 _ Hlist Hall) as (hash & Hpairs & Hn & _).
  exists hash. unfold createType_BlockHash, hexToU8a.
  rewrite E, Hpairs, Hn. reflexivity.
Qed.

(** The three ways through the [try] block: a hash, a refusal, a height. *)
Lemma getHashForBlock_cases api guard blockId :
  (exists hash : BlockHash,
     isHex blockId = true /\ String.length blockId = 66%nat /\
     run (getHashForBlock api guard blockId) = (inr hash, [])) \/
  (exists message,
     run (getHashForBlock api guard blockId) = (inl (BadRequest message), []))
  \/
  (isHex blockId = false /\ substring 0 2 blockId <> "0x" /\
   negb (JS.isInteger (JS.Number blockId))
   || JS.lt (JS.Number blockId) (JS.Int 0) = false).
Proof.
  destruct (isHex blockId) eqn:Hhex.
  - destruct (Nat.eq_dec (String.length blockId) 66) as [Hlen|Hlen].
    + left. destruct (createType_BlockHash_valid _ Hhex Hlen) as [hash Hc].
      exists hash. repeat split; trivial.
      unfold_run. rewrite Hhex, Hlen, Hc. reflexivity.
    + right. left. eexists. eapply getHashForBlock_rethrows;
        [apply try_wrong_length_hex; assumption | reflexivity].
  - destruct (string_dec (substring 0 2 blockId) "0x") as [Hpre|Hpre].
    + right. left. eexists. eapply getHashForBlock_rethrows;
        [apply try_invalid_hex; assumption | reflexivity].
    + destruct (negb (JS.isInteger (JS.Number blockId))
                || JS.lt (JS.Number blockId) (JS.Int 0)) eqn:Hnum.
      * right. left. eexists. eapply getHashForBlock_rethrows;
          [apply try_invalid_number; assumption | reflexivity].
      * right. right. repeat split; trivial.
Qed.

(** The two ways through the [catch] block: the error is thrown on, or the
    header is asked for and an error is thrown. *)
Lemma getHashForBlock_catch_cases api guard blockId err st :
  let (r, st') := getHashForBlock_catch api guard blockId err st in
  (instanceof_HttpError err = true /\ r = inl err /\ calls st' = calls st) \/
  (instanceof_HttpError err = false /\
   calls st' = (calls st ++ [CallGetHeader])%list /\
   ((exists message, r = inl (BadRequest message)) \/
    (exists message, r = inl (InternalServerError message)) \/
    (r = inl err /\ guard err = true))).
Proof.
  unfold getHashForBlock_catch, bind, try_catch, rpc, get_blockNumber, throw.
  destruct (instanceof_HttpError err).
  - left. repeat split.
  - destruct (getHeader api) as [e|header]; cbn [calls blockNumber].
    + right. repeat split. right. left. eexists. reflexivity.
    + destruct (match blockNumber st with Some _ => _ | None => _ end).
      * right. repeat split. left. eexists. reflexivity.
      * destruct (guard err) eqn:Hg; right; repeat split; right.
        -- right. split; reflexivity.
        -- left. eexists. reflexivity.
Qed.

(** Every error that leaves [getHashForBlock] is a BadRequest or an
    InternalServerError made by the resolver, or it is the very fault the
    hash lookup was rejected with, and then that fault is an HttpError or
    has the basic legacy shape. A fault of the header lookup never leaves. *)
Theorem getHashForBlock_errors :
  forall (api : Api) (guard : Value -> bool) (blockId : string) (err : Value),
    fst (run (getHashForBlock api guard blockId)) = inl err ->
    (exists message, err = BadRequest message) \/
    (exists message, err = InternalServerError message) \/
    (getBlockHash api (JS.Number blockId) = inl err /\
     (instanceof_HttpError err = true \/ guard err = true)).
Proof.
  intros api guard blockId err Hrun.
  destruct (getHashForBlock_cases api guard blockId)
    as [(hash & _ & _ & H)|[(message & H)|(Hhex & Hpre & Hnum)]].
  - rewrite H in Hrun. discriminate Hrun.
  - rewrite H in Hrun. injection Hrun as <-. left. eexists. reflexivity.
  - rewrite (getHashForBlock_height api guard blockId Hhex Hpre Hnum) in Hrun.
    destruct (getBlockHash api (JS.Number blockId)) as [fault|hash];
      [|discriminate Hrun].
    pose proof (getHashForBlock_catch_cases api guard blockId fault
                  {| calls := [CallGetBlockHash (JS.Number blockId)];
                     blockNumber := Some (JS.Number blockId) |}) as Hc.
    destruct (getHashForBlock_catch _ _ _ _ _) as [r st].
    cbn [fst] in Hrun. subst r.
    destruct Hc as [(Hhttp & [= ->] & _)
                   |(_ & _ & [(m & [= ->])|[(m & [= ->])|([= ->] & Hg)]])].
    + right. right. split; [reflexivity | left; exact Hhttp].
    + left. eexists. reflexivity.
    + right. left. eexists. reflexivity.
    + right. right. split; [reflexivity | right; exact Hg].
Qed.

Lemma getHashForBlock_errors_witness :
  getBlockHash (Fixtures.faulty_chain 10 Fixtures.legacy_fault)
    (JS.Number "5") = inl Fixtures.legacy_fault /\
  (instanceof_HttpError Fixtures.legacy_fault = true \/
   LegacyErrors.isBasicLegacyError Fixtures.legacy_fault = true).
Proof.
  destruct (getHashForBlock_errors
              (Fixtures.faulty_chain 10 Fixtures.legacy_fault)
              LegacyErrors.isBasicLegacyError "5" Fixtures.legacy_fault
              eq_refl) as [[m Hm]|[[m Hm]|H]].
  - discriminate Hm.
  - discriminate Hm.
  - exact H.
Defined.

(** A hash that [getHashForBlock] returns is the 32 bytes the identifier
    writes in hex, with no call made, or it is the chain client's answer
    to the one lookup of the hash at the number the identifier converts
    to. *)
Theorem getHashForBlock_hashes :
  forall (api : Api) (guard : Value -> bool) (blockId : string)
         (hash : BlockHash),
    fst (run (getHashForBlock api guard blockId)) = inr hash ->
    (hexToU8a blockId = Some hash /\ List.length hash = 32%nat /\
     snd (run (getHashForBlock api guard blockId)) = []) \/
    (getBlockHash api (JS.Number blockId) = inr hash /\
     snd (run (getHashForBlock api guard blockId))
     = [CallGetBlockHash (JS.Number blockId)]).
Proof.
  intros api guard blockId hash Hrun.
  destruct (getHashForBlock_cases api guard blockId)
    as [(hash' & Hhex & Hlen & H)|[(message & H)|(Hhex & Hpre & Hnum)]].
  - left. rewrite H in Hrun |- *. injection Hrun as ->.
    destruct (createType_BlockHash_valid _ Hhex Hlen) as [h Hc].
    assert (h = hash) as ->.
    { revert H. unfold_run. rewrite Hhex, Hlen, Hc. cbn [Nat.eqb andb].
      intros [= ->]. reflexivity. }
    unfold createType_BlockHash in Hc.
    destruct (hexToU8a blockId) as [bytes|]; [|discriminate Hc].
    destruct (Nat.eqb_spec (List.length bytes) 32) as [Hb|_];
      [|discriminate Hc].
    injection Hc as ->. repeat split. exact Hb.
  - rewrite H in Hrun. discriminate Hrun.
  - right.
    rewrite (getHashForBlock_height api guard blockId Hhex Hpre Hnum)
      in Hrun |- *.
    destruct (getBlockHash api (JS.Number blockId)) as [fault|h].
    + pose proof (getHashForBlock_catch_cases api guard blockId fault
                    {| calls := [CallGetBlockHash (JS.Number blockId)];
                       blockNumber := Some (JS.Number blockId) |}) as Hc.
      destruct (getHashForBlock_catch _ _ _ _ _) as [r st].
      cbn [fst] in Hrun. subst r.
      destruct Hc as [(_ & Hr & _)
                     |(_ & _ & [(m & Hr)|[(m & Hr)|(Hr & _)]])];
        discriminate Hr.
    + injection Hrun as ->. split; reflexivity.
Qed.

Lemma getHashForBlock_hashes_witness :
  (hexToU8a "42" = Some (Fixtures.hash_at 42) /\
   List.length (Fixtures.hash_at 42) = 32%nat /\
   snd (run (getHashForBlock (Fixtures.chain 9000000)
               LegacyErrors.isBasicLegacyError "42")) = []) \/
  (getBlockHash (Fixtures.chain 9000000) (JS.Number "42")
   = inr (Fixtures.hash_at 42) /\
   snd (run (getHashForBlock (Fixtures.chain 9000000)
               LegacyErrors.isBasicLegacyError "42"))
   = [CallGetBlockHash (JS.Number "42")]).
Proof.
  apply getHashForBlock_hashes. reflexivity.
Defined.

(** [getHashForBlock] asks the chain client at most twice and never for
    the finalized head: nothing, or the hash at the number the identifier
    converts to, or that and then the header; the header is asked for only
    after the hash lookup was rejected, and then the result is an error. *)
Theorem getHashForBlock_calls :
  forall (api : Api) (guard : Value -> bool) (blockId : string),
    let (r, called) := run (getHashForBlock api guard blockId) in
    called = [] \/
    called = [CallGetBlockHash (JS.Number blockId)] \/
    (called = [CallGetBlockHash (JS.Number blockId); CallGetHeader] /\
     (exists fault, getBlockHash api (JS.Number blockId) = inl fault) /\
     (exists err, r = inl err)).
Proof.
  intros api guard blockId.
  destruct (getHashForBlock_cases api guard blockId)
    as [(hash & _ & _ & H)|[(message & H)|(Hhex & Hpre & Hnum)]].
  - rewrite H. left. reflexivity.
  - rewrite H. left. reflexivity.
  - rewrite (getHashForBlock_height api guard blockId Hhex Hpre Hnum).
    destruct (getBlockHash api (JS.Number blockId)) as [fault|hash].
    + pose proof (getHashForBlock_catch_cases api guard blockId fault
                    {| calls := [CallGetBlockHash (JS.Number blockId)];
                       blockNumber := Some (JS.Number blockId) |}) as Hc.
      destruct (getHashForBlock_catch _ _ _ _ _) as [r st].
      cbn [calls] in Hc.
      destruct Hc as [(_ & _ & ->)|(_ & -> & Hr)].
      * right. left. reflexivity.
      * right. right. split; [reflexivity|]. split; [eexists; reflexivity|].
        destruct Hr as [[m ->]|[[m ->]|[-> _]]]; eexists; reflexivity.
    + right. left. reflexivity.
Qed.

Lemma getHashForBlock_not_finalized_head api guard blockId :
  ~ In CallGetFinalizedHead (snd (run (getHashForBlock api guard blockId))).
Proof.
  destruct (getHashForBlock_cases api guard blockId)
    as [(hash & _ & _ & H)|[(message & H)|(Hhex & Hpre & Hnum)]].
  - rewrite H. intros [].
  - rewrite H. intros [].
  - rewrite (getHashForBlock_height api guard blockId Hhex Hpre Hnum).
    destruct (getBlockHash api (JS.Number blockId)) as [fault|hash].
    + pose proof (getHashForBlock_catch_cases api guard blockId fault
                    {| calls := [CallGetBlockHash (JS.Number blockId)];
                       blockNumber := Some (JS.Number blockId) |}) as Hc.
      destruct (getHashForBlock_catch _ _ _ _ _) as [r st].
      cbn [calls snd] in *.
      destruct Hc as [(_ & _ & ->)|(_ & -> & _)]; cbn [In app];
        intros H; repeat (destruct H as [H|H]; [discriminate H|]); exact H.
    + cbn [snd In]. intros [H|[]]. discriminate H.
Qed.

(** [getHashFromAt] asks for the finalized head exactly when [at] is not a
    string. *)
Theorem getHashFromAt_asks_finalized_head :
  forall (api : Api) (guard : Value -> bool) (at_ : Value),
    In CallGetFinalizedHead (snd (run (getHashFromAt api guard at_)))
    <-> typeof at_ <> "string".
Proof.
  intros api guard at_. split.
  - intros Hin Hty. destruct at_; try discriminate Hty.
    cbn [getHashFromAt] in Hin.
    exact (getHashForBlock_not_finalized_head api guard s Hin).
  - intros Hty. destruct at_; try (left; reflexivity).
    contradiction Hty. reflexivity.
Qed.

(** ** What the number parser lets through *)

Lemma nonneg_integer_number (x : JS.number) :
  negb (JS.isInteger x) || JS.lt x (JS.Int 0) = false ->
  x = JS.NegZero \/ exists z, (0 <= z)%Z /\ x = JS.Int z.
Proof.
  intros H. apply orb_false_elim in H as [Hint Hneg].
  destruct x as [| |  |z| ]; try discriminate Hint.
  - left. reflexivity.
  - right. exists z. split; [|reflexivity].
    unfold JS.lt in Hneg. cbn [JS.finite_parts] in Hneg.
    apply Z.ltb_ge in Hneg. rewrite Z.pow_0_r, !Z.mul_1_r in Hneg. lia.
Qed.

(** [parseNumberOrThrow] makes no call and has two outcomes: a BadRequest
    with the message it was given, or the number its argument converts
    to, which then is a non-negative integer ([-0] counted as one). *)
Theorem parseNumberOrThrow_result :
  forall (n errorMessage : string),
    run (parseNumberOrThrow n errorMessage)
    = (inl (BadRequest errorMessage), []) \/
    (run (parseNumberOrThrow n errorMessage) = (inr (JS.Number n), []) /\
     (JS.Number n = JS.NegZero \/
      exists z, (0 <= z)%Z /\ JS.Number n = JS.Int z)).
Proof.
  intros n errorMessage. unfold run, parseNumberOrThrow, throw, ret.
  destruct (negb (JS.isInteger (JS.Number n))
            || JS.lt (JS.Number n) (JS.Int 0)) eqn:Hnum.
  - left. reflexivity.
  - right. split; [reflexivity|]. apply nonneg_integer_number. exact Hnum.
Qed.

(** What [verifyAndCastOr] returns is the default or a non-negative
    integer read off a string parameter; what it throws is a BadRequest;
    it makes no call. *)
Theorem verifyAndCastOr_result :
  forall (name : string) (str : Value) (or : option JS.number),
    let (r, called) := run (verifyAndCastOr name str or) in
    called = [] /\
    match r with
    | inr v =>
        v = or \/
        exists s, str = VString s /\ v = Some (JS.Number s) /\
                  (JS.Number s = JS.NegZero \/
                   exists z, (0 <= z)%Z /\ JS.Number s = JS.Int z)
    | inl err => exists message, err = BadRequest message
    end.
Proof.
  intros name str or. unfold run, verifyAndCastOr.
  destruct (truthy str); cbn [negb].
  - destruct str; try (split; [reflexivity | eexists; reflexivity]).
    unfold bind, parseNumberOrThrow, throw, ret.
    destruct (negb (JS.isInteger (JS.Number s))
              || JS.lt (JS.Number s) (JS.Int 0)) eqn:Hnum.
    + split; [reflexivity | eexists; reflexivity].
    + split; [reflexivity|]. right. exists s. repeat split.
      apply nonneg_integer_number. exact Hnum.
  - split; [reflexivity | left; reflexivity].
Qed.

(** ** Round trips *)

Lemma decimal_height_decimal (n : N) :
  Spec.decimal_height (JS.decimal n) = Some (Z.of_N n).
Proof.
  unfold Spec.decimal_height, JS.decimal.
  assert (Hnil : N.to_uint n <> Decimal.Nil).
  { destruct n; cbn [N.to_uint]; [discriminate|].
    apply DecimalPos.Unsigned.to_uint_nonnil. }
  replace (NilEmpty.string_of_uint (N.to_uint n))
    with (NilZero.string_of_uint (N.to_uint n))
    by (unfold NilZero.string_of_uint; destruct (N.to_uint n);
        [contradiction Hnil|..]; reflexivity).
  rewrite (NilZero.usu _ Hnil). cbn [option_map]. f_equal.
  unfold Z.of_uint. f_equal. apply DecimalN.Unsigned.of_to.
Qed.

Lemma Number_decimal_rendering (n : N) :
  (n < 2 ^ 53)%N -> JS.Number (JS.decimal n) = toNumber n.
Proof.
  intros Hn. apply Number_decimal; [apply decimal_height_decimal|].
  change (2 ^ 53)%Z with (Z.of_N (2 ^ 53)). lia.
Qed.

Lemma toNumber_nonneg (n : N) :
  negb (JS.isInteger (toNumber n)) || JS.lt (toNumber n) (JS.Int 0) = false.
Proof.
  cbn [toNumber JS.isInteger negb orb]. unfold JS.lt.
  cbn [JS.finite_parts]. apply Z.ltb_ge.
  rewrite Z.pow_0_r, !Z.mul_1_r. lia.
Qed.

(** A height below 2^53, written in decimal as the chain's numbers are
    ([toString()]), is read back by [verifyAndCastOr] as that height,
    whatever the default. *)
Theorem verifyAndCastOr_decimal :
  forall (name : string) (n : N) (or : option JS.number),
    (n < 2 ^ 53)%N ->
    run (verifyAndCastOr name (VString (JS.decimal n)) or)
    = (inr (Some (toNumber n)), []).
Proof.
  intros name n or Hn. unfold run, verifyAndCastOr.
  assert (Hne : (JS.decimal n =? "")%string = false).
  { apply String.eqb_neq. intros He.
    pose proof (decimal_height_decimal n) as Hd. rewrite He in Hd.
    discriminate Hd. }
  cbn [truthy]. rewrite Hne. cbn [negb].
  unfold bind, parseNumberOrThrow, throw, ret.
  rewrite (Number_decimal_rendering n Hn), toNumber_nonneg. reflexivity.
Qed.

Lemma verifyAndCastOr_decimal_witness :
  run (verifyAndCastOr "page" (VString "9000000") None)
  = (inr (Some (JS.Int 9000000)), []).
Proof.
  exact (verifyAndCastOr_decimal "page" 9000000 None eq_refl).
Defined.

(** A height below 2^53 written in decimal resolves by one lookup of the
    hash at that height: the chain client's answer, when it has one, is
    the result. *)
Theorem getHashForBlock_decimal :
  forall (api : Api) (guard : Value -> bool) (n : N) (hash : BlockHash),
    (n < 2 ^ 53)%N ->
    getBlockHash api (toNumber n) = inr hash ->
    run (getHashForBlock api guard (JS.decimal n))
    = (inr hash, [CallGetBlockHash (toNumber n)]).
Proof.
  intros api guard n hash Hn Hrpc.
  pose proof (decimal_height_decimal n) as Hd.
  destruct (decimal_height_not_hex _ _ Hd) as [Hhex Hpre].
  pose proof (Number_decimal_rendering n Hn) as Hnum.
  rewrite (getHashForBlock_height api guard (JS.decimal n) Hhex Hpre).
  - rewrite Hnum, Hrpc. reflexivity.
  - rewrite Hnum. apply toNumber_nonneg.
Qed.

Lemma getHashForBlock_decimal_witness :
  run (getHashForBlock (Fixtures.chain 9000000)
         LegacyErrors.isBasicLegacyError "8999999")
  = (inr (Fixtures.hash_at 8999999), [CallGetBlockHash (JS.Int 8999999)]).
Proof.
  exact (getHashForBlock_decimal (Fixtures.chain 9000000)
           LegacyErrors.isBasicLegacyError 8999999
           (Fixtures.hash_at 8999999) eq_refl eq_refl).
Defined.

Lemma hex_digit_hex_char (d : Z) :
  (0 <= d < 16)%Z -> JS.hex_digit (hex_char d) = Some d.
Proof.
  intros [H0 H16].
  destruct d as [|p|p]; try lia; [reflexivity|].
  do 4 (destruct p as [p|p|]; try lia; try reflexivity).
Qed.

Lemma hex_pairs_of_bytes (bytes : U8a) :
  Forall (fun b => 0 <= b < 256)%Z bytes ->
  let digits :=
    flat_map (fun b => [hex_char (b / 16); hex_char (b mod 16)]) bytes in
  hex_pairs digits = Some bytes /\
  forallb is_hex_char digits = true /\
  List.length digits = (2 * List.length bytes)%nat.
Proof.
  induction 1 as [|b bytes Hb _ IH]; [repeat split|].
  destruct IH as (Hpairs & Hall & Hlen).
  assert (Hhi : (0 <= b / 16 < 16)%Z).
  { split; [apply Z.div_pos; lia | apply Z.div_lt_upper_bound; lia]. }
  assert (Hlo : (0 <= b mod 16 < 16)%Z) by (apply Z.mod_pos_bound; lia).
  cbn [flat_map app hex_pairs forallb List.length].
  unfold is_hex_char at 1 2.
  rewrite (hex_digit_hex_char _ Hhi), (hex_digit_hex_char _ Hlo).
  cbn zeta in Hpairs, Hall, Hlen. rewrite Hpairs, Hall, Hlen.
  rewrite <- (Z.div_mod b 16) by lia.
  repeat split. lia.
Qed.

Lemma u8aToHex_is_hex (bytes : U8a) :
  Forall (fun b => 0 <= b < 256)%Z bytes ->
  isHex (u8aToHex bytes) = true /\
  hexToU8a (u8aToHex bytes) = Some bytes /\
  String.length (u8aToHex bytes) = (2 + 2 * List.length bytes)%nat.
Proof.
  intros Hbytes.
  destruct (hex_pairs_of_bytes bytes Hbytes) as (Hpairs & Hall & Hlen).
  unfold u8aToHex.
  set (digits := flat_map _ bytes) in *.
  change ("0x" ++ string_of_list_ascii digits)%string
    with (String "0" (String "x" (string_of_list_ascii digits))).
  assert (Hl : String.length (string_of_list_ascii digits)
               = (2 * List.length bytes)%nat).
  { rewrite <- length_list_ascii_of_string,
      list_ascii_of_string_of_list_ascii. exact Hlen. }
  repeat split.
  - unfold isHex. cbn [after_0x Ascii.eqb Bool.eqb andb String.length].
    rewrite list_ascii_of_string_of_list_ascii, Hall, Hl.
    replace (Nat.even (S (S (2 * List.length bytes)))) with true.
    + destruct bytes; [reflexivity|].
      destruct (string_of_list_ascii digits) eqn:E; [discriminate Hl|].
      reflexivity.
    + symmetry. cbn [Nat.even]. apply Nat.even_spec.
      exists (List.length bytes). reflexivity.
  - unfold hexToU8a. cbn [after_0x Ascii.eqb Bool.eqb andb].
    rewrite list_ascii_of_string_of_list_ascii. exact Hpairs.
  - cbn [String.length]. rewrite Hl. reflexivity.
Qed.

(** A block hash (32 bytes) written in hex, as [toHex()] writes the hashes
    of the chain, resolves to itself, and the chain client is not asked. *)
Theorem getHashForBlock_of_hex :
  forall (api : Api) (guard : Value -> bool) (hash : BlockHash),
    List.length hash = 32%nat ->
    Forall (fun b => 0 <= b < 256)%Z hash ->
    run (getHashForBlock api guard (u8aToHex hash)) = (inr hash, []).
Proof.
  intros api guard hash Hlen Hbytes.
  destruct (u8aToHex_is_hex hash Hbytes) as (Hhex & Hto & Hl).
  rewrite Hlen in Hl.
  unfold_run. rewrite Hhex, Hl. cbn [Nat.eqb andb Nat.mul Nat.add].
  unfold createType_BlockHash. rewrite Hto, Hlen. reflexivity.
Qed.

Lemma getHashForBlock_of_hex_witness :
  run (getHashForBlock (Fixtures.chain 10) LegacyErrors.isBasicLegacyError
         (u8aToHex (Fixtures.hash_at 171)))
  = (inr (Fixtures.hash_at 171), []).
Proof.
  apply getHashForBlock_of_hex; [reflexivity|].
  unfold Fixtures.hash_at. apply Forall_forall. intros b Hb.
  apply repeat_spec in Hb. subst b. split; [discriminate | reflexivity].
Defined.

(** ** Mounted routes *)

Section RoutingFacts.

Import Express Routing.

Variable Request : Type.

Lemma catchWrap_never_rejects (cb : RequestHandler Request) req res reason :
  snd (catchWrap cb req res) <> Rejected reason.
Proof.
  unfold catchWrap.
  destruct (cb req res) as [effects [err| |  |err| ]]; discriminate.
Qed.

(** The loop of [safeMountAsyncGetHandlers], as one append. *)
Lemma safeMountAsyncGetHandlers_app (path : string)
    (pathsAndHandlers : list (string * RequestHandler Request)) :
  forall router : Router Request,
    safeMountAsyncGetHandlers path pathsAndHandlers router
    = (router ++
       map (fun ph => {| route_path := (path ++ fst ph)%string;
                         route_handler := catchWrap (snd ph) |})
           pathsAndHandlers)%list.
Proof.
  unfold safeMountAsyncGetHandlers.
  induction pathsAndHandlers as [|[suffix handler] rest IH]; intros router.
  - symmetry. apply app_nil_r.
  - cbn [fold_left map fst snd]. rewrite IH. unfold router_get.
    rewrite <- app_assoc. reflexivity.
Qed.

(** Mounting keeps the routes the router had, in place, and adds after
    them one route per pair, in the order of the pairs, each at the base
    path followed by the pair's suffix. *)
Theorem safeMountAsyncGetHandlers_routes :
  forall (path : string)
         (pathsAndHandlers : list (string * RequestHandler Request))
         (router : Router Request),
    exists added : Router Request,
      safeMountAsyncGetHandlers path pathsAndHandlers router
      = (router ++ added)%list /\
      map route_path added
      = map (fun ph => (path ++ fst ph)%string) pathsAndHandlers /\
      List.length added = List.length pathsAndHandlers.
Proof.
  intros path pathsAndHandlers router.
  eexists. split; [apply safeMountAsyncGetHandlers_app|].
  split; [rewrite map_map; reflexivity | apply length_map].
Qed.

(** Mounting keeps a router guarded: when no handler on the router gives a
    rejected promise, none does after mounting, whatever the handlers
    mounted do. *)
Theorem safeMountAsyncGetHandlers_guarded :
  forall (path : string)
         (pathsAndHandlers : list (string * RequestHandler Request))
         (router : Router Request),
    Forall (fun route => forall req res reason,
              snd (route_handler route req res) <> Rejected reason) router ->
    Forall (fun route => forall req res reason,
              snd (route_handler route req res) <> Rejected reason)
           (safeMountAsyncGetHandlers path pathsAndHandlers router).
Proof.
  intros path pathsAndHandlers router Hrouter.
  rewrite safeMountAsyncGetHandlers_app. apply Forall_app. split; [exact Hrouter|].
  apply Forall_map, Forall_forall. intros [suffix handler] _ req res reason.
  cbn [route_handler snd]. apply catchWrap_never_rejects.
Qed.

End RoutingFacts.

Lemma safeMountAsyncGetHandlers_guarded_witness :
  Forall (fun route => forall req res reason,
            snd (Routing.route_handler route req res)
            <> Express.Rejected reason)
    (Routing.safeMountAsyncGetHandlers (Request := unit) "/blocks"
       [("/head", fun _ _ => ([], Express.Throws (BadRequest "boom")));
        ("/:number", fun _ _ => ([], Express.Rejects (BadRequest "boom")))]
       []).
Proof.
  apply safeMountAsyncGetHandlers_guarded. constructor.
Defined.

(** ** The staking controller *)

Section StakingFacts.

Import Express Routing PalletsStakingProgressController.

Variable api : Api.
Variable guard : Value -> bool.
Variable Progress : Type.
Variable derive : BlockHash -> Value + Progress.
Variable sanitizeNumbers : Progress -> Value.

(** A handler that resolves a hash, asks the service and sends. *)
Lemma run_resolve_derive_send (resolve : M BlockHash) :
  run (hash <- resolve ;;
       progress <- await (derive hash) ;;
       ret (sanitizedSend Progress sanitizeNumbers progress))
  = (match fst (run resolve) with
     | inl err => inl err
     | inr hash =>
         match derive hash with
         | inl err => inl err
         | inr progress => inr [Send (sanitizeNumbers progress)]
         end
     end,
     snd (run resolve)).
Proof.
  unfold run, bind, await, ret, sanitizedSend.
  destruct (resolve _) as [[err|hash] st]; cbn [fst snd]; [reflexivity|].
  destruct (derive hash); reflexivity.
Qed.

Lemma catchWrap_async (cb : RequestHandler INumberParam)
    (body : M (list Effect)) (req : INumberParam) (res : Response) :
  cb req res = async body ->
  catchWrap cb req res
  = match fst (run body) with
    | inr effects => (effects, Fulfilled)
    | inl err => ([Next err], Fulfilled)
    end.
Proof.
  unfold catchWrap, async. intros ->. destruct (fst (run body)); reflexivity.
Qed.

(** [getStakingInfo], as mounted: the finalized head is looked up, once,
    and nothing else is asked of the chain client by the handler itself;
    a fault of that lookup or of the service goes to [next] as it is, not
    made into an HttpError, and nothing is sent; otherwise the sanitized
    answer of the service for the finalized head is sent, and [next] is
    not called. *)
Theorem getStakingInfo_mounted :
  forall (req : INumberParam) (res : Response),
    snd (run (getStakingInfo_body api Progress derive sanitizeNumbers))
    = [CallGetFinalizedHead] /\
    catchWrap (getStakingInfo api Progress derive sanitizeNumbers) req res
    = match getFinalizedHead api with
      | inl fault => ([Next fault], Fulfilled)
      | inr hash =>
          match derive hash with
          | inl fault => ([Next fault], Fulfilled)
          | inr progress => ([Send (sanitizeNumbers progress)], Fulfilled)
          end
      end.
Proof.
  intros req res.
  rewrite (catchWrap_async _ _ req res eq_refl). unfold getStakingInfo_body.
  rewrite run_resolve_derive_send. unfold run, rpc. cbn [fst snd calls app].
  split; [reflexivity|].
  destruct (getFinalizedHead api) as [fault|hash]; [reflexivity|].
  destruct (derive hash); reflexivity.
Qed.

(** [getStakingInfoAtBlock], as mounted: an error of the resolver goes to
    [next] as it is and nothing is sent, whatever the service would have
    answered. *)
Theorem getStakingInfoAtBlock_passes_errors :
  forall (req : INumberParam) (res : Response) (err : Value),
    fst (run (getHashForBlock api guard (params_number req))) = inl err ->
    catchWrap (getStakingInfoAtBlock api guard Progress derive sanitizeNumbers)
      req res
    = ([Next err], Fulfilled).
Proof.
  intros req res err Herr.
  rewrite (catchWrap_async _ _ req res eq_refl).
  unfold getStakingInfoAtBlock_body.
  rewrite run_resolve_derive_send. cbn [fst]. rewrite Herr. reflexivity.
Qed.

(** [getStakingInfoAtBlock], as mounted: what is sent is the sanitized
    answer of the service for the hash the identifier resolved to, and
    nothing else ever is. *)
Theorem getStakingInfoAtBlock_sends :
  forall (req : INumberParam) (res : Response) (body : Value),
    In (Send body)
       (fst (catchWrap
               (getStakingInfoAtBlock api guard Progress derive sanitizeNumbers)
               req res)) ->
    exists hash progress,
      fst (run (getHashForBlock api guard (params_number req))) = inr hash /\
      derive hash = inr progress /\
      body = sanitizeNumbers progress.
Proof.
  intros req res body.
  rewrite (catchWrap_async _ _ req res eq_refl).
  unfold getStakingInfoAtBlock_body.
  rewrite run_resolve_derive_send. cbn [fst].
  destruct (fst (run (getHashForBlock api guard (params_number req))))
    as [err|hash].
  - intros [H|[]]. discriminate H.
  - destruct (derive hash) as [err|progress] eqn:Hd.
    + intros [H|[]]. discriminate H.
    + intros [[= <-]|[]]. exists hash, progress. repeat split. exact Hd.
Qed.

End StakingFacts.

(** A short hex identifier on [/staking-info/:number]. *)
Lemma getStakingInfoAtBlock_passes_errors_witness :
  Express.catchWrap
    (PalletsStakingProgressController.getStakingInfoAtBlock
       (Fixtures.chain 9000000) LegacyErrors.isBasicLegacyError
       StakingFixtures.Progress StakingFixtures.derivePalletStakingProgress
       StakingFixtures.sanitizeNumbers)
    {| PalletsStakingProgressController.params_number := "0xabc" |}
    {| Express.headersSent := false |}
  = ([Express.Next
        (BadRequest
           "Cannot get block hash for 0xabc. Hex string block IDs must be a valid hex string and must be 32-bytes (66-characters) in length.")],
     Express.Fulfilled).
Proof.
  apply (getStakingInfoAtBlock_passes_errors (Fixtures.chain 9000000)).
  reflexivity.
Defined.

(** Height 42 on a chain at 9000000. *)
Lemma getStakingInfoAtBlock_sends_witness :
  exists hash progress,
    fst (run (getHashForBlock (Fixtures.chain 9000000)
                LegacyErrors.isBasicLegacyError "42")) = inr hash /\
    StakingFixtures.derivePalletStakingProgress hash = inr progress /\
    VObject PlainObject [("activeEra", VString "42")]
    = StakingFixtures.sanitizeNumbers progress.
Proof.
  apply (getStakingInfoAtBlock_sends (Fixtures.chain 9000000)
           LegacyErrors.isBasicLegacyError StakingFixtures.Progress
           StakingFixtures.derivePalletStakingProgress
           StakingFixtures.sanitizeNumbers
           {| PalletsStakingProgressController.params_number := "42" |}
           {| Express.headersSent := false |}).
  left. reflexivity.
Defined.
